(** * joltex/hack: the two scripts [speedread] and [vancouver_heritage]

    A shallow embedding of [src/speedread/speedread.py] and
    [src/vancouver_heritage/heritage_photos.py].

    Both scripts are sequences of calls into third-party libraries, so
    the embedding has three layers:
    - [Py]: the Python string and list primitives the scripts use
      ([str.endswith], [str.split], [in], [str.strip], [repr], indexing);
    - [Eff]: exceptions and a state-and-exception monad over an abstract
      world, in which every library call is an operation that may change
      the world and may raise;
    - [Speedread] and [Heritage]: the functions of the two scripts, written
      against a record [Env] that holds the library operations.

    Python [str] values are modelled as [string], the bytes of the text
    in UTF-8.  [str.strip] removes the white space of Unicode; [repr] is
    the one of ASCII text and copies the bytes of other characters. *)

From Stdlib Require Import String Ascii List Bool Arith Lia.
Import ListNotations.
Open Scope list_scope.
Open Scope string_scope.

(* ================================================================== *)
(** * Python primitives *)

Module Py.

(** [s.endswith(suffix)] *)
Definition endswith (s suffix : string) : bool :=
  let n := String.length s in
  let m := String.length suffix in
  (m <=? n)%nat && String.eqb (substring (n - m) m s) suffix.

(** [s.split(sep)] for a separator of one character.  The result is never
    empty: a string without the separator yields itself. *)
Fixpoint split (sep : ascii) (s : string) : list string :=
  match s with
  | EmptyString => [EmptyString]
  | String c s' =>
      if Ascii.eqb c sep then EmptyString :: split sep s'
      else match split sep s' with
           | [] => [String c EmptyString]
           | h :: t => String c h :: t
           end
  end.

(** [sub in s] on strings: [sub] occurs in [s] as a contiguous substring. *)
Fixpoint contains (sub s : string) : bool :=
  prefix sub s ||
  match s with
  | EmptyString => false
  | String _ s' => contains sub s'
  end.

(** [sep.join(xs)] *)
Definition join (sep : string) (xs : list string) : string :=
  String.concat sep xs.

(** The string of the given bytes. *)
Definition bytes (l : list nat) : string :=
  fold_right (fun n s => String (ascii_of_nat n) s) EmptyString l.

(** The characters [c] with [c.isspace()], in UTF-8: TAB, LF, VT, FF, CR,
    the separators U+001C..U+001F, the space, U+0085, U+00A0, U+1680,
    U+2000..U+200A, U+2028, U+2029, U+202F, U+205F and U+3000. *)
Definition whitespace : list string :=
  map bytes
    [ [9]; [10]; [11]; [12]; [13]; [28]; [29]; [30]; [31]; [32];
      [194; 133]; [194; 160]; [225; 154; 128];
      [226; 128; 128]; [226; 128; 129]; [226; 128; 130]; [226; 128; 131];
      [226; 128; 132]; [226; 128; 133]; [226; 128; 134]; [226; 128; 135];
      [226; 128; 136]; [226; 128; 137]; [226; 128; 138];
      [226; 128; 168]; [226; 128; 169]; [226; 128; 175]; [226; 129; 159];
      [227; 128; 128] ].

(** [s] without the leading [p], when it starts with [p]. *)
Fixpoint drop_prefix (p s : string) : option string :=
  match p with
  | EmptyString => Some s
  | String a p' =>
      match s with
      | EmptyString => None
      | String b s' => if Ascii.eqb a b then drop_prefix p' s' else None
      end
  end.

(** [s] without its first character, when that is one of [ps]. *)
Fixpoint drop_first (ps : list string) (s : string) : option string :=
  match ps with
  | [] => None
  | p :: ps' =>
      match drop_prefix p s with
      | Some r => Some r
      | None => drop_first ps' s
      end
  end.

(** Dropping leading characters among [ps], at most [fuel] of them; the
    length of the string is fuel enough. *)
Fixpoint lstrip_chars (ps : list string) (fuel : nat) (s : string) : string :=
  match fuel with
  | O => s
  | S n =>
      match drop_first ps s with
      | Some r => lstrip_chars ps n r
      | None => s
      end
  end.

Fixpoint rev_append (s acc : string) : string :=
  match s with
  | EmptyString => acc
  | String c s' => rev_append s' (String c acc)
  end.

(** The bytes of [s] in reverse order. *)
Definition reverse (s : string) : string := rev_append s EmptyString.

(** [s.lstrip()] *)
Definition lstrip (s : string) : string :=
  lstrip_chars whitespace (String.length s) s.

(** [s.rstrip()] *)
Definition rstrip (s : string) : string :=
  reverse (lstrip_chars (map reverse whitespace) (String.length s) (reverse s)).

(** [s.strip()] *)
Definition strip (s : string) : string := rstrip (lstrip s).

(** Truth value of a [str]: false exactly for the empty string. *)
Definition str_truthy (s : string) : bool :=
  match s with EmptyString => false | _ => true end.

(** Truth value of an [Optional[str]]. *)
Definition opt_str_truthy (o : option string) : bool :=
  match o with None => false | Some s => str_truthy s end.

(** [a or b] on [Optional[str]] values. *)
Definition opt_str_or (a b : option string) : option string :=
  if opt_str_truthy a then a else b.

(** The quotation mark, the apostrophe and the backslash. *)
Definition dquote : ascii := "034"%char.
Definition squote : ascii := "039"%char.
Definition backslash : ascii := "092"%char.

Definition hex_digit (n : nat) : ascii :=
  if (n <? 10)%nat then ascii_of_nat (48 + n) else ascii_of_nat (87 + n).

Definition has_char (c : ascii) (s : string) : bool :=
  contains (String c EmptyString) s.

(** One character of [repr(s)], inside the quotes [q]. *)
Definition repr_char (q c : ascii) : string :=
  let n := nat_of_ascii c in
  if Ascii.eqb c q || Ascii.eqb c backslash then String backslash (String c EmptyString)
  else if (n =? 9)%nat then String backslash "t"
  else if (n =? 10)%nat then String backslash "n"
  else if (n =? 13)%nat then String backslash "r"
  else if ((n <? 32) || (n =? 127))%nat then
    String backslash (String "x" (String (hex_digit (n / 16)) (String (hex_digit (n mod 16)) EmptyString)))
  else String c EmptyString.

Fixpoint repr_body (q : ascii) (s : string) : string :=
  match s with
  | EmptyString => EmptyString
  | String c s' => repr_char q c ++ repr_body q s'
  end.

(** [repr(s)] of a [str]: apostrophes around the text, or quotation marks
    when the text has an apostrophe and no quotation mark.  Exact on
    ASCII text; the bytes of other characters are copied, which is what
    Python does for the printable ones only. *)
Definition repr_str (s : string) : string :=
  let q := if has_char squote s && negb (has_char dquote s) then dquote else squote in
  String q (repr_body q s ++ String q EmptyString).

(** [repr] of an [Optional[str]], which is also what an f-string prints
    for [None]. *)
Definition repr_opt_str (o : option string) : string :=
  match o with None => "None" | Some s => repr_str s end.

(** [next((i for i, x in enumerate(xs) if p(x)), None)] *)
Fixpoint find_index {A : Type} (p : A -> bool) (xs : list A) : option nat :=
  match xs with
  | [] => None
  | x :: xs' =>
      if p x then Some 0
      else match find_index p xs' with
           | Some i => Some (S i)
           | None => None
           end
  end.

End Py.

(* ================================================================== *)
(** * Exceptions and effects *)

Module Eff.

(** The exceptions the scripts raise themselves, and [LibraryError] for
    whatever a library call raises (an [OSError] of [open], a network error
    of [requests], ...), named by its class. *)
Inductive Exn : Type :=
| ValueError (msg : string)
| NotImplementedError (msg : string)
| IndexError (msg : string)
| AttributeError (attr : string)
| LibraryError (cls : string).

Inductive Res (A : Type) : Type :=
| Ok (a : A)
| Raise (e : Exn).
Arguments Ok {A} a.
Arguments Raise {A} e.

Definition is_ok {A : Type} (r : Res A) : bool :=
  match r with Ok _ => true | Raise _ => false end.

(** [xs[0]] and [xs[-1]] *)
Definition index0 {A : Type} (xs : list A) : Res A :=
  match xs with
  | [] => Raise (IndexError "list index out of range")
  | x :: _ => Ok x
  end.

Fixpoint index_last {A : Type} (xs : list A) : Res A :=
  match xs with
  | [] => Raise (IndexError "list index out of range")
  | [x] => Ok x
  | _ :: xs' => index_last xs'
  end.

(** A computation over the world [W]: it returns or raises, and leaves a
    world behind in both cases. *)
Definition M (W A : Type) : Type := W -> Res A * W.

Definition ret {W A : Type} (a : A) : M W A := fun w => (Ok a, w).

Definition raise {W A : Type} (e : Exn) : M W A := fun w => (Raise e, w).

Definition bind {W A B : Type} (c : M W A) (k : A -> M W B) : M W B :=
  fun w =>
    match c w with
    | (Ok a, w') => k a w'
    | (Raise e, w') => (Raise e, w')
    end.

(** A pure step that may raise. *)
Definition lift {W A : Type} (r : Res A) : M W A := fun w => (r, w).

(** A library call that changes the world and cannot raise. *)
Definition act {W : Type} (f : W -> W) : M W unit := fun w => (Ok tt, f w).

(** [try: c  except: h] with a bare [except], which catches everything. *)
Definition try_except {W A : Type} (c : M W A) (h : Exn -> M W A) : M W A :=
  fun w =>
    match c w with
    | (Ok a, w') => (Ok a, w')
    | (Raise e, w') => h e w'
    end.

(** [try: c  finally: f], the shape of a [with] block: [f] runs on both
    exits and the result of [c] is passed on. *)
Definition finally {W A : Type} (c : M W A) (f : W -> W) : M W A :=
  fun w => let (r, w') := c w in (r, f w').

Module Notations.
Notation "x <- c ;; k" := (bind c (fun x => k))
  (at level 61, c at next level, right associativity).
Notation "c ;;; k" := (bind c (fun _ => k))
  (at level 61, right associativity).
End Notations.
Import Notations.

(** [[f(x) for x in xs]] *)
Fixpoint map_m {W A B : Type} (f : A -> M W B) (xs : list A) : M W (list B) :=
  match xs with
  | [] => ret []
  | x :: xs' => y <- f x ;; ys <- map_m f xs' ;; ret (y :: ys)
  end.

(** [for x in xs: acc = body(acc, x)] *)
Fixpoint fold_m {W A S : Type} (body : S -> A -> M W S) (acc : S) (xs : list A) : M W S :=
  match xs with
  | [] => ret acc
  | x :: xs' => acc' <- body acc x ;; fold_m body acc' xs'
  end.

(** [for x in xs: body(x)] *)
Fixpoint for_m {W A : Type} (body : A -> M W unit) (xs : list A) : M W unit :=
  match xs with
  | [] => ret tt
  | x :: xs' => body x ;;; for_m body xs'
  end.

End Eff.

Import Eff.Notations.

(* ================================================================== *)
(** * speedread/speedread.py *)

Module Speedread.
Import Py Eff.

(** A value of type [str | Path]. *)
Inductive PathLike : Type :=
| PStr (s : string)
| PPath (p : string).

(** Truth value of a [str | Path | None]: [None] and the empty [str] are
    false; a [pathlib.Path] is always true. *)
Definition file_truthy (file : option PathLike) : bool :=
  match file with
  | None => false
  | Some (PStr s) => str_truthy s
  | Some (PPath _) => true
  end.

(** The libraries behind the script: [logging], [pypdf], [pdf2image],
    [pytesseract], the built-in [open], [anthropic], and the constant of
    the [config] module. *)
Record Env : Type := {
  World : Type;
  PdfPage : Type;
  Image : Type;
  Client : Type;
  (** [config.ANTHROPIC_API_KEY] *)
  ANTHROPIC_API_KEY : option string;
  (** [logger.info(msg)] *)
  logger_info : string -> World -> World;
  (** [PdfReader(file).pages] *)
  PdfReader_pages : PathLike -> M World (list PdfPage);
  (** [page.extract_text()] *)
  extract_text : PdfPage -> M World string;
  (** [with open(file, "r") as f: f.read()] *)
  open_read : PathLike -> M World string;
  (** [pdf2image.convert_from_path(file)] *)
  convert_from_path : PathLike -> M World (list Image);
  (** [pytesseract.image_to_string(image)] *)
  image_to_string : Image -> M World string;
  (** [anthropic.Anthropic(api_key=key)] *)
  Anthropic : option string -> M World Client
}.

Section Script.
Variable E : Env.

(** [text_from_images]: OCR of every page image, appended in order. *)
Definition text_from_images (file : PathLike) : M (World E) string :=
  images <- convert_from_path E file ;;
  fold_m (fun text image => t <- image_to_string E image ;; ret (text ++ t))
         "" images.

(** [read_file] *)
Definition read_file (file : option PathLike) : M (World E) string :=
  if negb (file_truthy file) then raise (ValueError "No file path provided")
  else
    match file with
    | Some (PStr s) =>
        if endswith s ".pdf" then
          act (logger_info E "Reading pdf file...") ;;;
          pages <- PdfReader_pages E (PStr s) ;;
          texts <- map_m (extract_text E) pages ;;
          let text := join "" texts in
          if negb (str_truthy text) then
            act (logger_info E "No text found in pdf, attempting to extract from images...") ;;;
            text_from_images (PStr s)
          else ret text
        else if endswith s ".txt" then
          act (logger_info E "Reading txt file...") ;;;
          open_read E (PStr s)
        else
          ext <- lift (index_last (split "." s)) ;;
          raise (NotImplementedError ("File type " ++ ext ++ " not supported"))
    | _ =>
        (* [file.endswith]: neither [pathlib.Path] nor [None] has it *)
        raise (AttributeError "endswith")
    end.

(** The attributes of [AiReader]; [client] has [init=False] and no
    default, so it is unset until [__attrs_post_init__] assigns it. *)
Record AiReader : Type := {
  file : option PathLike;
  model : string;
  text : option string;
  client : option (Client E);
  api_key : option string
}.

(** [AiReader.__attrs_post_init__] *)
Definition attrs_post_init (self : AiReader) : M (World E) AiReader :=
  self1 <-
    (if file_truthy (file self) && negb (opt_str_truthy (text self)) then
       t <- read_file (file self) ;;
       ret {| file := file self; model := model self; text := Some t;
              client := client self; api_key := api_key self |}
     else ret self) ;;
  if contains "claude" (model self1) then
    let key := opt_str_or (api_key self1) (ANTHROPIC_API_KEY E) in
    c <- Anthropic E key ;;
    ret {| file := file self1; model := model self1; text := text self1;
           client := Some c; api_key := key |}
  else
    raise (NotImplementedError ("Model " ++ model self1 ++ " not supported")).

(** [AiReader(file=..., model=..., text=..., api_key=...)]: the generated
    [__init__] stores the arguments and calls [__attrs_post_init__]. *)
Definition AiReader_new (file : option PathLike) (model : string)
    (text : option string) (api_key : option string) : M (World E) AiReader :=
  attrs_post_init {| file := file; model := model; text := text;
                     client := None; api_key := api_key |}.

(** The default of the [model] attribute. *)
Definition default_model : string := "claude-3-opus-20240229".

End Script.
End Speedread.

(* ================================================================== *)
(** * vancouver_heritage/heritage_photos.py *)

Module Heritage.
Import Py Eff.

(** ** The parsed page

    The tree [BeautifulSoup] builds: text, comments, and tags with their
    children.  Of a tag's attributes the script consults only [class],
    which [BeautifulSoup] keeps as the list of its words. *)
#[warnings="-register-all"]
Inductive node : Type :=
| NText (s : string)
| NComment (s : string)
| NTag (name : string) (classes : list string) (children : list node).

Definition children (n : node) : list node :=
  match n with
  | NTag _ _ ch => ch
  | _ => []
  end.

(** All nodes below [n], in document order. *)
Fixpoint descendants (n : node) : list node :=
  match n with
  | NTag _ _ ch => flat_map (fun c => c :: descendants c) ch
  | _ => []
  end.

Definition is_tag (name : string) (n : node) : bool :=
  match n with
  | NTag nm _ _ => String.eqb nm name
  | _ => false
  end.

Definition has_class (cls : string) (n : node) : bool :=
  match n with
  | NTag _ classes _ => existsb (String.eqb cls) classes
  | _ => false
  end.

(** [n.findAll(name)] *)
Definition findAll (name : string) (n : node) : list node :=
  filter (is_tag name) (descendants n).

(** [n.findAll(name, {"class": cls})] *)
Definition findAll_class (name cls : string) (n : node) : list node :=
  filter (fun d => is_tag name d && has_class cls d) (descendants n).

(** [n.find(name)]: the first match or [None]. *)
Definition find (name : string) (n : node) : option node :=
  hd_error (findAll name n).

(** The text strings below [n], in document order (comments are not
    text). *)
Definition strings (n : node) : list string :=
  flat_map (fun d => match d with NText s => [s] | _ => [] end) (descendants n).

(** [n.get_text(strip=True)]: every string stripped, the empty ones
    dropped, the rest joined without a separator. *)
Definition get_text_strip (n : node) : string :=
  join "" (filter str_truthy (map strip (strings n))).

(** ** Locations *)

(** A cell of a CSV row: a [str] or [None]. *)
Inductive Cell : Type :=
| CNone
| CStr (s : string).

(** The libraries behind the script: [geopy], [requests], [bs4], [gmplot],
    the built-in [open] and [csv], and the printing of [float]. *)
Record Env : Type := {
  World : Type;
  Float : Type;
  (** [str(x)] of a [float] *)
  str_float : Float -> string;
  (** [geopy.location.Location], with its [latitude] and [longitude]
      properties and its [repr]; it defines [__len__] as 2, so an
      instance is always true. *)
  GeopyLocation : Type;
  geo_latitude : GeopyLocation -> Float;
  geo_longitude : GeopyLocation -> Float;
  geo_repr : GeopyLocation -> string;
  (** [Nominatim(user_agent="joltex").geocode(query)] *)
  Nominatim_geocode : string -> M World (option GeopyLocation);
  (** [requests.get(url).content] *)
  requests_get : string -> M World string;
  (** [BeautifulSoup(content, "html.parser")] *)
  html_parser : string -> node;
  (** [gmplot.GoogleMapPlotter(lat, lng, zoom)], [gmap.marker] and
      [gmap.draw] *)
  Gmap : Type;
  GoogleMapPlotter : option Float -> option Float -> nat -> M World Gmap;
  gmap_marker : Gmap -> option Float -> option Float -> string -> M World unit;
  gmap_draw : Gmap -> string -> M World unit;
  (** [open(path, "w", encoding="utf8", newline="")], the [writerow] of
      the [csv.writer] on the open file, and the closing of the file when
      the [with] block is left *)
  File : Type;
  open_write : string -> M World File;
  csv_writerow : File -> list Cell -> M World unit;
  file_close : File -> World -> World
}.

Section Script.
Variable E : Env.

Record Location : Type := {
  address : string;
  city : string;
  geopy_location : option (GeopyLocation E);
  name : option string
}.

(** [Location._geolocate], the default of [geopy_location] *)
Definition _geolocate (address city : string) : M (World E) (option (GeopyLocation E)) :=
  try_except
    (Nominatim_geocode E (address ++ ", " ++ city))
    (fun _ => ret None).

(** [Location(address=..., city=..., name=...)]: the generated [__init__]
    stores [address] and [city], computes the default of [geopy_location]
    and stores [name]. *)
Definition Location_new (address city : string) (name : option string)
  : M (World E) Location :=
  g <- _geolocate address city ;;
  ret {| address := address; city := city; geopy_location := g; name := name |}.

(** [Location.latitude] *)
Definition latitude (self : Location) : option (Float E) :=
  match geopy_location self with
  | Some g => Some (geo_latitude E g)
  | None => None
  end.

(** [Location.longitude] *)
Definition longitude (self : Location) : option (Float E) :=
  match geopy_location self with
  | Some g => Some (geo_longitude E g)
  | None => None
  end.

(** What an f-string prints for an [Optional[float]]. *)
Definition fmt_opt_float (x : option (Float E)) : string :=
  match x with
  | Some f => str_float E f
  | None => "None"
  end.

(** [repr] of a [Location], as [attrs] generates it; an f-string prints a
    [Location] with it, since the class defines no [__str__]. *)
Definition Location_repr (l : Location) : string :=
  "Location(address=" ++ repr_str (address l)
  ++ ", city=" ++ repr_str (city l)
  ++ ", geopy_location="
  ++ match geopy_location l with Some g => geo_repr E g | None => "None" end
  ++ ", name=" ++ repr_opt_str (name l) ++ ")".

(** ** [get_locations_without_photos] *)

(** The body of the inner loop, for one [tr]. *)
Definition scan_row (photo_index location_index : nat) (city : string)
    (locations_without_photos : list Location) (row : node)
  : M (World E) (list Location) :=
  let columns := findAll "td" row in
  if (Nat.max photo_index location_index <? length columns)%nat then
    match nth_error columns photo_index, nth_error columns location_index with
    | Some photo_column, Some location_column =>
        let address := get_text_strip location_column in
        match find "img" photo_column with
        | None =>
            l <- Location_new address city None ;;
            ret (locations_without_photos ++ [l])%list
        | Some _ => ret locations_without_photos
        end
    | _, _ => raise (IndexError "list index out of range")
    end
  else ret locations_without_photos.

(** The body of the outer loop, for one [table]. *)
Definition scan_table (location_col photo_col city : string)
    (locations_without_photos : list Location) (table : node)
  : M (World E) (list Location) :=
  let headers := map get_text_strip (findAll "th" table) in
  let photo_index := find_index (contains photo_col) headers in
  let location_index := find_index (contains location_col) headers in
  match photo_index, location_index with
  | Some pi, Some li =>
      fold_m (scan_row pi li city) locations_without_photos (findAll "tr" table)
  | _, _ => ret locations_without_photos
  end.

Definition get_locations_without_photos (url location_col photo_col city : string)
  : M (World E) (list Location) :=
  content <- requests_get E url ;;
  let soup := html_parser E content in
  let tables := findAll_class "table" "wikitable" soup in
  fold_m (scan_table location_col photo_col city) [] tables.

(** ** [generate_google_maps_url_for_ios] *)

(** [f"{loc.latitude},{loc.longitude}"] *)
Definition coord_str (loc : Location) : string :=
  fmt_opt_float (latitude loc) ++ "," ++ fmt_opt_float (longitude loc).

(** [x if x else locations[0]]: a [Location] is always true, so only
    [None] takes the second branch. *)
Definition or_first (x : option Location) (locations : list Location) : Res Location :=
  match x with
  | Some l => Ok l
  | None => index0 locations
  end.

Definition generate_google_maps_url_for_ios (locations : list Location)
    (start_location : option Location) : Res string :=
  match or_first start_location locations with
  | Raise e => Raise e
  | Ok start_location =>
      let start_str := coord_str start_location in
      let destination_locations := join "+to:" (map coord_str locations) in
      let url := "comgooglemaps://?saddr=" ++ Location_repr start_location
                 ++ "&daddr=" ++ destination_locations in
      Ok url
  end.

(** ** [plot_locations_on_map] *)

Definition plot_locations_on_map (locations : list Location)
    (centre_location : option Location) (output_path : string) : M (World E) unit :=
  centre_location <- lift (or_first centre_location locations) ;;
  gmap <- GoogleMapPlotter E (latitude centre_location) (longitude centre_location) 13 ;;
  for_m (fun location =>
           gmap_marker E gmap (latitude location) (longitude location) (address location))
        locations ;;;
  gmap_draw E gmap output_path.

(** ** [to_csv] *)

(** A [dict] with [str] keys, in insertion order. *)
Definition Dict : Type := list (string * Cell).

Definition dict_keys (d : Dict) : list string := map fst d.

(** [d.get(key, default)] *)
Fixpoint dict_get (d : Dict) (key : string) (default : Cell) : Cell :=
  match d with
  | [] => default
  | (k, v) :: d' => if String.eqb k key then v else dict_get d' key default
  end.

(** The unstructure hook [to_csv] registers: the attributes of a
    [Location] in declaration order, [geopy_location] omitted. *)
Definition unstructure (l : Location) : Dict :=
  [ ("address", CStr (address l));
    ("city", CStr (city l));
    ("name", match name l with Some n => CStr n | None => CNone end) ].

(** [DictWriter._dict_to_list] with the defaults [restval=""] and
    [extrasaction="raise"]. *)
Definition dict_to_list (fieldnames : list string) (rowdict : Dict) : Res (list Cell) :=
  let wrong_fields :=
    filter (fun k => negb (existsb (String.eqb k) fieldnames)) (dict_keys rowdict) in
  match wrong_fields with
  | [] => Ok (map (fun key => dict_get rowdict key (CStr "")) fieldnames)
  | _ => Raise (ValueError ("dict contains fields not in fieldnames: "
                            ++ join ", " (map repr_str wrong_fields)))
  end.

(** [DictWriter.writeheader]: the row of the field names themselves. *)
Definition writeheader (fout : File E) (fieldnames : list string) : M (World E) unit :=
  row <- lift (dict_to_list fieldnames (map (fun k => (k, CStr k)) fieldnames)) ;;
  csv_writerow E fout row.

(** [DictWriter.writerows] *)
Definition writerows (fout : File E) (fieldnames : list string) (rows : list Dict)
  : M (World E) unit :=
  for_m (fun rowdict =>
           row <- lift (dict_to_list fieldnames rowdict) ;;
           csv_writerow E fout row)
        rows.

Definition to_csv (locations : list Location) (output_path : string) : M (World E) unit :=
  let csv_data := map unstructure locations in
  fout <- open_write E output_path ;;
  finally
    (first <- lift (index0 csv_data) ;;
     let fieldnames := dict_keys first in
     writeheader fout fieldnames ;;;
     writerows fout fieldnames csv_data)
    (file_close E fout).

End Script.
End Heritage.

(* ================================================================== *)
(** * A recording environment

    One concrete world for both scripts: the world is the list of the
    library calls made so far, oldest first, and the libraries answer from
    a small fixed file system, geocoder and web page.  It is used to run
    the scripts on concrete inputs. *)

Module Demo.
Import Py Eff.

Inductive Event : Type :=
| EvLog (msg : string)
| EvPdfReader (path : string)
| EvExtractText (page : string)
| EvOpenRead (path : string)
| EvConvertFromPath (path : string)
| EvImageToString (image : string)
| EvAnthropic (key : option string)
| EvGeocode (query : string)
| EvGet (url : string)
| EvPlotter (lat lng : option string) (zoom : nat)
| EvMarker (lat lng : option string) (title : string)
| EvDraw (path : string)
| EvOpenWrite (path : string)
| EvWriteRow (path : string) (row : list Heritage.Cell)
| EvClose (path : string).

Definition Trace : Type := list Event.

(** Record the call, then answer. *)
Definition call {A : Type} (ev : Event) (r : Res A) : M Trace A :=
  fun w => (r, (w ++ [ev])%list).

Definition path_of (f : Speedread.PathLike) : string :=
  match f with Speedread.PStr s => s | Speedread.PPath p => p end.

Definition not_found {A : Type} : Res A := Raise (LibraryError "FileNotFoundError").

(** The files: [paper.pdf] has two pages of embedded text, [scan.pdf] has
    two pages without text whose images read [page one ] and [page two],
    [notes.txt] is a text file. A page is named by its embedded text and
    an image by the text recognised in it. *)
Definition speedread_env : Speedread.Env := {|
  Speedread.World := Trace;
  Speedread.PdfPage := string;
  Speedread.Image := string;
  Speedread.Client := option string;
  Speedread.ANTHROPIC_API_KEY := Some "sk-config";
  Speedread.logger_info := fun msg w => (w ++ [EvLog msg])%list;
  Speedread.PdfReader_pages := fun f =>
    call (EvPdfReader (path_of f))
      (if String.eqb (path_of f) "paper.pdf" then Ok ["Hello, "; "world"]
       else if String.eqb (path_of f) "scan.pdf" then Ok [""; ""]
       else not_found);
  Speedread.extract_text := fun page => call (EvExtractText page) (Ok page);
  Speedread.open_read := fun f =>
    call (EvOpenRead (path_of f))
      (if String.eqb (path_of f) "notes.txt" then Ok "some notes" else not_found);
  Speedread.convert_from_path := fun f =>
    call (EvConvertFromPath (path_of f))
      (if String.eqb (path_of f) "scan.pdf" then Ok ["page one "; "page two"]
       else if String.eqb (path_of f) "paper.pdf" then Ok [""; ""]
       else not_found);
  Speedread.image_to_string := fun image => call (EvImageToString image) (Ok image);
  Speedread.Anthropic := fun key => call (EvAnthropic key) (Ok key)
|}.

(** A geocoding result: the resolved address and the coordinates.  A
    [float] is named by its decimal form. *)
Record Geo : Type := {
  geo_address : string;
  geo_lat : string;
  geo_lng : string
}.

Definition main_st : Geo :=
  {| geo_address := "1 Main St, Vancouver"; geo_lat := "49.28"; geo_lng := "-123.1" |}.

Definition oak_st : Geo :=
  {| geo_address := "2 Oak St, Vancouver"; geo_lat := "49.25"; geo_lng := "-123.13" |}.

(** The geocoder knows two addresses, is unreachable for queries about
    [Offline], and finds nothing otherwise. *)
Definition geocoder (query : string) : Res (option Geo) :=
  if String.eqb query "1 Main St, Vancouver" then Ok (Some main_st)
  else if String.eqb query "2 Oak St, Vancouver" then Ok (Some oak_st)
  else if prefix "Offline" query then Raise (LibraryError "GeocoderUnavailable")
  else Ok None.

Definition td (ch : list Heritage.node) : Heritage.node := Heritage.NTag "td" [] ch.
Definition th (s : string) : Heritage.node := Heritage.NTag "th" [] [Heritage.NText s].
Definition tr (ch : list Heritage.node) : Heritage.node := Heritage.NTag "tr" [] ch.
Definition img : Heritage.node := Heritage.NTag "img" [] [].

(** The first row has a photo, the second and third have none. *)
Definition row_main : Heritage.node :=
  tr [td [Heritage.NText "Station"]; td [Heritage.NText " 1 Main St "];
      td [Heritage.NTag "a" [] [img]]].
Definition row_oak : Heritage.node :=
  tr [td [Heritage.NText "Oak House"]; td [Heritage.NText "2 Oak St"]; td []].
Definition row_elm : Heritage.node :=
  tr [td [Heritage.NText "Elm Hall"]; td [Heritage.NText "3 Elm St"]; td []].

Definition table_a : Heritage.node :=
  Heritage.NTag "table" ["wikitable"; "sortable"]
    [tr [th "Name"; th "Location"; th "Photo"]; row_main; row_oak; row_elm].

Definition page : Heritage.node :=
  Heritage.NTag "[document]" [] [Heritage.NTag "body" [] [table_a]].

Definition heritage_env : Heritage.Env := {|
  Heritage.World := Trace;
  Heritage.Float := string;
  Heritage.str_float := fun x => x;
  Heritage.GeopyLocation := Geo;
  Heritage.geo_latitude := geo_lat;
  Heritage.geo_longitude := geo_lng;
  Heritage.geo_repr := fun g =>
    "Location(" ++ geo_address g ++ ", (" ++ geo_lat g ++ ", " ++ geo_lng g ++ ", 0.0))";
  Heritage.Nominatim_geocode := fun query => call (EvGeocode query) (geocoder query);
  Heritage.requests_get := fun url => call (EvGet url) (Ok "<html>");
  Heritage.html_parser := fun _ => page;
  Heritage.Gmap := unit;
  Heritage.GoogleMapPlotter := fun lat lng zoom => call (EvPlotter lat lng zoom) (Ok tt);
  Heritage.gmap_marker := fun _ lat lng title => call (EvMarker lat lng title) (Ok tt);
  Heritage.gmap_draw := fun _ path => call (EvDraw path) (Ok tt);
  Heritage.File := string;
  Heritage.open_write := fun path => call (EvOpenWrite path) (Ok path);
  Heritage.csv_writerow := fun path row => call (EvWriteRow path row) (Ok tt);
  Heritage.file_close := fun path w => (w ++ [EvClose path])%list
|}.

(** Two locations as the constructor leaves them. *)
Definition loc_main : Heritage.Location heritage_env :=
  Heritage.Build_Location heritage_env "1 Main St" "Vancouver" (Some main_st) None.

Definition loc_elm : Heritage.Location heritage_env :=
  Heritage.Build_Location heritage_env "3 Elm St" "Vancouver" None None.

End Demo.

(* ================================================================== *)
(** * The terms of the theorems

    Definitions the theorems below are stated in.  [has_header],
    [contains_img], [csv_header], [csv_row] and [write_csv] follow the
    words of the specification.  [row_cells] and [table_cells] are closed
    forms of what the scan computes: they name the cells as the code
    finds them, by position. *)

Module Spec.
Import Py Eff Heritage.

Section Spec.
Variable E : Heritage.Env.

(** The table has a header whose text contains [col]. *)
Definition has_header (col : string) (table : node) : Prop :=
  exists h, In h (map get_text_strip (findAll "th" table)) /\ contains col h = true.

(** The cell contains an [img] element, at any depth. *)
Definition contains_img (cell : node) : Prop :=
  exists d, In d (descendants cell) /\ is_tag "img" d = true.

(** The cell whose text the scan takes as the address of a row: the
    [li]-th [td] of the row, provided the row has a [pi]-th and a [li]-th
    [td] and no [img] lies below the [pi]-th.  The positions count the
    [td] cells of the row only: in a row that begins with a [th], the
    [pi]-th [td] is not the cell in the [pi]-th column. *)
Definition row_cells (pi li : nat) (row : node) : list node :=
  match nth_error (findAll "td" row) pi, nth_error (findAll "td" row) li with
  | Some photo_cell, Some location_cell =>
      if existsb (is_tag "img") (descendants photo_cell) then [] else [location_cell]
  | _, _ => []
  end.

(** The cells whose text the scan takes as addresses in a table: those
    of its rows, in order, with [pi] and [li] the positions, among all
    the [th] of the table, of the first headers that contain the given
    words; none when either word is in no header. *)
Definition table_cells (location_col photo_col : string) (table : node) : list node :=
  let headers := map get_text_strip (findAll "th" table) in
  match find_index (contains photo_col) headers,
        find_index (contains location_col) headers with
  | Some pi, Some li => flat_map (row_cells pi li) (findAll "tr" table)
  | _, _ => []
  end.

(** [loc] is a [Location] built from the stripped text of [cell], in
    [town], without a name. *)
Definition built_from (town : string) (cell : node) (loc : Location E) : Prop :=
  address E loc = get_text_strip cell /\ city E loc = town /\ name E loc = None.

(** The header row of the exported CSV: the public fields of
    [Location]. *)
Definition csv_header : list Cell := [CStr "address"; CStr "city"; CStr "name"].

(** The data row of one location. *)
Definition csv_row (l : Location E) : list Cell :=
  [ CStr (address E l); CStr (city E l);
    match name E l with Some n => CStr n | None => CNone end ].

(** Writing the given rows to a fresh file at [path]. *)
Definition write_csv (path : string) (rows : list (list Cell)) : M (World E) unit :=
  fout <- open_write E path ;;
  finally (for_m (csv_writerow E fout) rows) (file_close E fout).

End Spec.
End Spec.

(* ================================================================== *)
(** * speedread/speedread.py: summarising *)

From Stdlib Require Import ZArith.

Module Summarize.
Import Py Eff Speedread.

(** A content block of a response: a text block has the [text]
    attribute, the other kinds of block have not. *)
Inductive Block : Type :=
| TextBlock (text : string)
| OtherBlock.

(** The [anthropic] call behind [get_response]:
    [client.messages.create(model=..., max_tokens=..., messages=...)
    .content], the messages being pairs of a role and a content. *)
Record Api (E : Env) : Type := {
  messages_create :
    Client E -> string -> Z -> list (string * string) -> M (World E) (list Block)
}.
Arguments messages_create {E} _ _ _ _ _.

Section Script.
Variable E : Env.
Variable A : Api E.

(** [get_response] *)
Definition get_response (prompt : string) (client : Client E) (model : string)
    (max_tokens : Z) : M (World E) string :=
  content <- messages_create A client model max_tokens [("user", prompt)] ;;
  block <- lift (index0 content) ;;
  match block with
  | TextBlock t => ret t
  | OtherBlock => raise (AttributeError "text")
  end.

(** What an f-string prints for an [Optional[str]]. *)
Definition fmt_opt_str (o : option string) : string :=
  match o with Some s => s | None => "None" end.

(** [summarize_text]; the two characters before the prompt are a slash
    and an [n], as in the source. *)
Definition summarize_text (text : option string) (prompt : string) (client : Client E)
    (model : string) (max_tokens : Z) : M (World E) string :=
  let full_prompt :=
    "Here is the contents of a pdf <content>" ++ fmt_opt_str text ++ "</content>" in
  let full_prompt := full_prompt ++ "/n" ++ prompt in
  get_response full_prompt client model max_tokens.

(** [AiReader.summarize]; reading [self.client] before it was assigned
    is an [AttributeError]. *)
Definition summarize (self : AiReader E) (prompt : string) (max_tokens : Z)
  : M (World E) string :=
  match client E self with
  | Some c => summarize_text (text E self) prompt c (model E self) max_tokens
  | None => raise (AttributeError "client")
  end.

(** The defaults of the [prompt] and [max_tokens] parameters of
    [summarize]. *)
Definition default_prompt : string := "Please summarize the text.".
Definition default_max_tokens : Z := 2048%Z.

End Script.
End Summarize.

(* ================================================================== *)
(** * More recorded environments *)

Module DemoMore.
Import Py Eff.

(** An API that answers every request with one text block, the content
    of the first message it was sent, and leaves the trace alone. *)
Definition echo_api : Summarize.Api Demo.speedread_env :=
  {| Summarize.messages_create := fun _ _ _ messages w =>
       (Ok [Summarize.TextBlock (match messages with (_, c) :: _ => c | [] => "" end)], w) |}.

(** Two readers as the constructor leaves them, one given a text and
    one given nothing. *)
Definition reader_with_text : Speedread.AiReader Demo.speedread_env :=
  Speedread.Build_AiReader Demo.speedread_env None "claude-3-haiku" (Some "given text")
    (Some (Some "sk-config")) (Some "sk-config").

Definition reader_without_text : Speedread.AiReader Demo.speedread_env :=
  Speedread.Build_AiReader Demo.speedread_env None "claude-3-opus-20240229" None
    (Some (Some "sk-config")) (Some "sk-config").

Definition first_cell_is (s : string) (row : list Heritage.Cell) : bool :=
  match row with
  | Heritage.CStr a :: _ => String.eqb a s
  | _ => false
  end.

(** The recording environment with two faults: the disk is full when
    the row of [3 Elm St] is written, and [gmplot] rejects a marker
    without coordinates. *)
Definition faulty_env : Heritage.Env := {|
  Heritage.World := Demo.Trace;
  Heritage.Float := string;
  Heritage.str_float := fun x => x;
  Heritage.GeopyLocation := Demo.Geo;
  Heritage.geo_latitude := Demo.geo_lat;
  Heritage.geo_longitude := Demo.geo_lng;
  Heritage.geo_repr := Heritage.geo_repr Demo.heritage_env;
  Heritage.Nominatim_geocode := Heritage.Nominatim_geocode Demo.heritage_env;
  Heritage.requests_get := Heritage.requests_get Demo.heritage_env;
  Heritage.html_parser := Heritage.html_parser Demo.heritage_env;
  Heritage.Gmap := unit;
  Heritage.GoogleMapPlotter := Heritage.GoogleMapPlotter Demo.heritage_env;
  Heritage.gmap_marker := fun _ lat lng title =>
    Demo.call (Demo.EvMarker lat lng title)
      (match lat with Some _ => Ok tt | None => Raise (LibraryError "TypeError") end);
  Heritage.gmap_draw := Heritage.gmap_draw Demo.heritage_env;
  Heritage.File := string;
  Heritage.open_write := Heritage.open_write Demo.heritage_env;
  Heritage.csv_writerow := fun path row =>
    Demo.call (Demo.EvWriteRow path row)
      (if first_cell_is "3 Elm St" row then Raise (LibraryError "OSError") else Ok tt);
  Heritage.file_close := Heritage.file_close Demo.heritage_env
|}.

(** A table whose rows begin with a row header, as [! scope="row"]
    gives in a wiki table: the first row has a photo, the second has
    none. *)
Definition table_rowheader : Heritage.node :=
  Heritage.NTag "table" ["wikitable"]
    [ Demo.tr [Demo.th "Name"; Demo.th "Photo"; Demo.th "Location"; Demo.th "Notes"];
      Demo.tr [Demo.th "Station"; Demo.td [Heritage.NTag "a" [] [Demo.img]];
               Demo.td [Heritage.NText "1 Main St"]; Demo.td []];
      Demo.tr [Demo.th "Oak House"; Demo.td [];
               Demo.td [Heritage.NText "2 Oak St"];
               Demo.td [Heritage.NText "built 1910"]] ].

Definition page_rowheader : Heritage.node :=
  Heritage.NTag "[document]" [] [Heritage.NTag "body" [] [table_rowheader]].

(** The recording environment, serving that page. *)
Definition rowheader_env : Heritage.Env := {|
  Heritage.World := Demo.Trace;
  Heritage.Float := string;
  Heritage.str_float := fun x => x;
  Heritage.GeopyLocation := Demo.Geo;
  Heritage.geo_latitude := Demo.geo_lat;
  Heritage.geo_longitude := Demo.geo_lng;
  Heritage.geo_repr := Heritage.geo_repr Demo.heritage_env;
  Heritage.Nominatim_geocode := Heritage.Nominatim_geocode Demo.heritage_env;
  Heritage.requests_get := Heritage.requests_get Demo.heritage_env;
  Heritage.html_parser := fun _ => page_rowheader;
  Heritage.Gmap := unit;
  Heritage.GoogleMapPlotter := Heritage.GoogleMapPlotter Demo.heritage_env;
  Heritage.gmap_marker := Heritage.gmap_marker Demo.heritage_env;
  Heritage.gmap_draw := Heritage.gmap_draw Demo.heritage_env;
  Heritage.File := string;
  Heritage.open_write := Heritage.open_write Demo.heritage_env;
  Heritage.csv_writerow := Heritage.csv_writerow Demo.heritage_env;
  Heritage.file_close := Heritage.file_close Demo.heritage_env
|}.

Definition f_main : Heritage.Location faulty_env :=
  Heritage.Build_Location faulty_env "1 Main St" "Vancouver" (Some Demo.main_st) None.

Definition f_elm : Heritage.Location faulty_env :=
  Heritage.Build_Location faulty_env "3 Elm St" "Vancouver" None None.

Definition f_oak : Heritage.Location faulty_env :=
  Heritage.Build_Location faulty_env "2 Oak St" "Vancouver" (Some Demo.oak_st) (Some "Oak House").

End DemoMore.

(* ================================================================== *)
(** * Facts about the Python primitives *)

Section PyFacts.
Import Py Eff.

Lemma string_app_nil_r (s : string) : s ++ "" = s.
Proof. induction s as [|c s IH]; simpl; [reflexivity | now rewrite IH]. Qed.

Lemma string_app_assoc (a b c : string) : (a ++ b) ++ c = a ++ b ++ c.
Proof. induction a as [|x a IH]; simpl; [reflexivity | now rewrite IH]. Qed.

Lemma string_length_app (a b : string) :
  String.length (a ++ b) = String.length a + String.length b.
Proof. induction a as [|x a IH]; simpl; [reflexivity | now rewrite IH]. Qed.

(** [prefix] holds exactly of the strings that start with [p]. *)
Lemma prefix_iff (p s : string) :
  prefix p s = true <-> exists b, s = p ++ b.
Proof.
  revert s; induction p as [|c p IH]; intros s.
  - split; [intros _; now exists s | intros _; now destruct s].
  - destruct s as [|d s]; simpl.
    + split; [discriminate | intros [b Hb]; discriminate].
    + destruct (ascii_dec c d) as [->|Hne].
      * rewrite IH. split; intros [b Hb]; exists b; congruence.
      * split; [discriminate | intros [b Hb]; congruence].
Qed.

(** [sub in s] holds exactly when [s] is some text, [sub], some text. *)
Lemma contains_iff (sub s : string) :
  contains sub s = true <-> exists a b, s = a ++ sub ++ b.
Proof.
  induction s as [|c s IH]; cbn [contains].
  - rewrite orb_false_r, prefix_iff. split.
    + intros [b Hb]. now exists "", b.
    + intros [a [b Hab]]. destruct a; simpl in Hab; [now exists b | discriminate].
  - rewrite orb_true_iff, prefix_iff, IH. split.
    + intros [[b Hb] | [a [b Hab]]].
      * now exists "", b.
      * exists (String c a), b. simpl. now rewrite Hab.
    + intros [a [b Hab]]. destruct a as [|x a]; simpl in Hab.
      * left. now exists b.
      * right. exists a, b. congruence.
Qed.

Lemma has_char_cons (c d : ascii) (s : string) :
  has_char c (String d s) = Ascii.eqb c d || has_char c s.
Proof.
  unfold has_char; simpl.
  destruct (ascii_dec c d) as [->|Hne].
  - rewrite Ascii.eqb_refl. now destruct s.
  - apply Ascii.eqb_neq in Hne. now rewrite Hne.
Qed.

Lemma substring_skip (a t : string) (m : nat) :
  substring (String.length a) m (a ++ t) = substring 0 m t.
Proof. induction a as [|x a IH]; simpl; [reflexivity | exact IH]. Qed.

Lemma substring_all (t : string) : substring 0 (String.length t) t = t.
Proof. induction t as [|x t IH]; simpl; [reflexivity | now rewrite IH]. Qed.

Lemma substring_cut (s : string) (k : nat) :
  k <= String.length s ->
  s = substring 0 k s ++ substring k (String.length s - k) s.
Proof.
  revert k; induction s as [|x s IH]; intros k Hk; simpl in *.
  - destruct k; [reflexivity | lia].
  - destruct k as [|k]; simpl.
    + now rewrite substring_all.
    + f_equal. apply IH. lia.
Qed.

(** [s.endswith(suffix)] holds exactly when [s] is some text followed by
    [suffix]. *)
Lemma endswith_iff (s suffix : string) :
  endswith s suffix = true <-> exists a, s = a ++ suffix.
Proof.
  unfold endswith. rewrite andb_true_iff, Nat.leb_le, String.eqb_eq. split.
  - intros [Hle Hsub].
    exists (substring 0 (String.length s - String.length suffix) s).
    pose proof (substring_cut s (String.length s - String.length suffix)) as Hcut.
    replace (String.length s - (String.length s - String.length suffix))
      with (String.length suffix) in Hcut by lia.
    rewrite Hsub in Hcut. apply Hcut. lia.
  - intros [a ->]. rewrite string_length_app. split; [lia|].
    replace (String.length a + String.length suffix - String.length suffix)
      with (String.length a) by lia.
    now rewrite substring_skip, substring_all.
Qed.

Lemma split_nonempty (sep : ascii) (s : string) : split sep s <> [].
Proof.
  destruct s as [|c s]; simpl; [discriminate|].
  destruct (Ascii.eqb c sep); [discriminate|].
  destruct (split sep s); discriminate.
Qed.

(** A string without the separator is its own only field. *)
Lemma split_no_sep (sep : ascii) (s : string) :
  has_char sep s = false -> split sep s = [s].
Proof.
  induction s as [|c s IH]; simpl; [reflexivity|].
  rewrite has_char_cons, orb_false_iff. intros [Hc Hs].
  rewrite Ascii.eqb_sym, Hc, (IH Hs). reflexivity.
Qed.

(** The fields of [a], a separator, [b] are the fields of [a] followed by
    the fields of [b]. *)
Lemma split_app (sep : ascii) (a b : string) :
  split sep (a ++ String sep b) = (split sep a ++ split sep b)%list.
Proof.
  induction a as [|c a IH]; simpl.
  - now rewrite Ascii.eqb_refl.
  - destruct (Ascii.eqb c sep); [now rewrite IH|].
    rewrite IH. destruct (split sep a) as [|h t] eqn:Ha.
    + now apply split_nonempty in Ha.
    + reflexivity.
Qed.

Lemma index_last_app {A : Type} (xs ys : list A) :
  ys <> [] -> index_last (xs ++ ys)%list = index_last ys.
Proof.
  intros Hys. induction xs as [|x xs IH]; [reflexivity|].
  simpl. destruct (xs ++ ys)%list eqn:Happ; [|exact IH].
  destruct xs; simpl in Happ; [now subst | discriminate].
Qed.

(** [s.split(sep)[-1]] is the text after the last separator. *)
Lemma split_last (sep : ascii) (stem ext : string) :
  has_char sep ext = false ->
  index_last (split sep (stem ++ String sep ext)) = Ok ext.
Proof.
  intros Hext. rewrite split_app, index_last_app by apply split_nonempty.
  now rewrite (split_no_sep _ _ Hext).
Qed.

(** A path [stem.ext] ends with [.e] only if [ext] is [e]. *)
Lemma endswith_ext (stem ext e : string) :
  has_char "." ext = false -> has_char "." e = false -> ext <> e ->
  endswith (stem ++ String "." ext) (String "." e) = false.
Proof.
  intros Hext He Hne.
  destruct (endswith _ _) eqn:Hends; [|reflexivity].
  apply endswith_iff in Hends. destruct Hends as [a Ha].
  pose proof (split_last "." stem ext Hext) as H1.
  pose proof (split_last "." a e He) as H2.
  rewrite Ha, H2 in H1. congruence.
Qed.

End PyFacts.

(* ================================================================== *)
(** * speedread: reading a file *)

Section SpeedreadFacts.
Import Py Eff Speedread.
Variable E : Speedread.Env.

Lemma bind_ok {W A B : Type} (c : M W A) (k : A -> M W B) (w w1 : W) (a : A) :
  c w = (Ok a, w1) -> bind c k w = k a w1.
Proof. unfold bind. now intros ->. Qed.

Lemma bind_raise {W A B : Type} (c : M W A) (k : A -> M W B) (w w1 : W) (e : Exn) :
  c w = (Raise e, w1) -> bind c k w = (Raise e, w1).
Proof. unfold bind. now intros ->. Qed.

Lemma bind_ext {W A B : Type} (c c' : M W A) (k k' : A -> M W B) (w : W) :
  c w = c' w -> (forall a w', k a w' = k' a w') -> bind c k w = bind c' k' w.
Proof.
  intros Hc Hk. unfold bind. rewrite Hc.
  destruct (c' w) as [[a|e] w']; [apply Hk | reflexivity].
Qed.

Lemma finally_ext {W A : Type} (c c' : M W A) (f : W -> W) (w : W) :
  c w = c' w -> finally c f w = finally c' f w.
Proof. unfold finally. now intros ->. Qed.

(** A list comprehension returns one result per element, in order, each
    the result of the call on that element. *)
Lemma map_m_ok {W A B : Type} (f : A -> M W B) (xs : list A) :
  forall (w w' : W) (ys : list B),
    map_m f xs w = (Ok ys, w') ->
    Forall2 (fun x y => exists wa wb, f x wa = (Ok y, wb)) xs ys.
Proof.
  induction xs as [|x xs IH]; intros w w' ys H; simpl in H.
  - unfold ret in H. injection H as <- _. constructor.
  - unfold bind in H. destruct (f x w) as [[y|e] w1] eqn:Hf; [|discriminate].
    destruct (map_m f xs w1) as [[ys'|e] w2] eqn:Hm; [|discriminate].
    unfold ret in H. injection H as <- _.
    constructor; [now exists w, w1 | exact (IH _ _ _ Hm)].
Qed.

(** The [+=] loop of [text_from_images] builds the same string as a
    [join] of the recognised texts. *)
Lemma ocr_loop_join (images : list (Image E)) :
  forall (acc : string) (w w' : World E) (ocr : list string),
    map_m (image_to_string E) images w = (Ok ocr, w') ->
    fold_m (fun text image => t <- image_to_string E image ;; ret (text ++ t))
           acc images w
    = (Ok (acc ++ join "" ocr), w').
Proof.
  induction images as [|i images IH]; intros acc w w' ocr H; simpl in H.
  - unfold ret in H. injection H as <- <-. simpl. unfold ret.
    now rewrite string_app_nil_r.
  - unfold bind in H.
    destruct (image_to_string E i w) as [[t|e] w1] eqn:Hi; [|discriminate].
    destruct (map_m (image_to_string E) images w1) as [[ts|e] w2] eqn:Hm;
      [|discriminate].
    unfold ret in H. injection H as <- <-.
    cbn [fold_m]. unfold bind at 1. unfold bind at 1. rewrite Hi.
    unfold ret at 1. rewrite (IH _ _ _ _ Hm). f_equal. f_equal.
    rewrite string_app_assoc. f_equal.
    unfold join. simpl. destruct ts; simpl; [now rewrite string_app_nil_r | reflexivity].
Qed.

(** [text_from_images] returns the recognised texts of the page images,
    joined in page order. *)
Lemma text_from_images_join (file : PathLike) (w w1 w2 : World E)
    (images : list (Image E)) (ocr : list string) :
  convert_from_path E file w = (Ok images, w1) ->
  map_m (image_to_string E) images w1 = (Ok ocr, w2) ->
  text_from_images E file w = (Ok (join "" ocr), w2).
Proof.
  intros Hc Hm. unfold text_from_images.
  rewrite (bind_ok _ _ _ _ _ Hc). now rewrite (ocr_loop_join _ _ _ _ _ Hm).
Qed.

Lemma endswith_nonempty (s suffix : string) :
  endswith s suffix = true -> str_truthy suffix = true -> str_truthy s = true.
Proof.
  intros H Hs. apply endswith_iff in H. destruct H as [a ->].
  destruct a; [exact Hs | reflexivity].
Qed.

(** On a [str] path ending in [.pdf], [read_file] returns the page texts
    joined in page order, unless that is empty: then it returns what
    [text_from_images] returns. *)
Lemma read_file_pdf_str (s : string) (w w1 w2 : World E)
    (pages : list (PdfPage E)) (texts : list string) :
  endswith s ".pdf" = true ->
  PdfReader_pages E (PStr s) (logger_info E "Reading pdf file..." w) = (Ok pages, w1) ->
  map_m (extract_text E) pages w1 = (Ok texts, w2) ->
  read_file E (Some (PStr s)) w =
    if str_truthy (join "" texts) then (Ok (join "" texts), w2)
    else text_from_images E (PStr s)
           (logger_info E "No text found in pdf, attempting to extract from images..." w2).
Proof.
  intros Hpdf Hp Hm. unfold read_file.
  cbn [file_truthy]. rewrite (endswith_nonempty _ _ Hpdf eq_refl). cbn [negb].
  rewrite Hpdf. unfold bind at 1. unfold act at 1.
  rewrite (bind_ok _ _ _ _ _ Hp), (bind_ok _ _ _ _ _ Hm).
  destruct (str_truthy (join "" texts)); reflexivity.
Qed.

(** On a [str] path [stem.ext] with [ext] neither [pdf] nor [txt],
    [read_file] raises [NotImplementedError] naming [ext], and calls no
    library: the world is unchanged. *)
Lemma read_file_unsupported_str (stem ext : string) (w : World E) :
  has_char "." ext = false -> ext <> "pdf" -> ext <> "txt" ->
  read_file E (Some (PStr (stem ++ String "." ext))) w =
    (Raise (NotImplementedError ("File type " ++ ext ++ " not supported")), w).
Proof.
  intros Hext Hpdf Htxt. unfold read_file. cbn [file_truthy].
  replace (str_truthy (stem ++ String "." ext)) with true by now destruct stem.
  cbn [negb].
  rewrite (endswith_ext stem ext "pdf" Hext eq_refl Hpdf).
  rewrite (endswith_ext stem ext "txt" Hext eq_refl Htxt).
  unfold bind, lift. now rewrite (split_last "." stem ext Hext).
Qed.

(** On a [pathlib.Path], [read_file] fails at [file.endswith] before any
    library is called. *)
Lemma read_file_Path (p : string) (w : World E) :
  read_file E (Some (PPath p)) w = (Raise (AttributeError "endswith"), w).
Proof. reflexivity. Qed.

End SpeedreadFacts.

(* ================================================================== *)
(** * speedread: the claims *)

Section SpeedreadClaims.
Import Py Eff Speedread.
Variable E : Speedread.Env.

(** C3 (as amended). For a missing ([None]) or empty file path,
    [read_file] raises [ValueError("No file path provided")] and calls no
    library.  Constructing an [AiReader] with such a path does not call
    [read_file] at all, whatever [text] is: it goes straight to the model
    check, so it builds the client when the model name contains [claude]
    and raises the unsupported-model error otherwise. *)
Theorem missing_path_read_file_and_AiReader (file : option PathLike) :
  file = None \/ file = Some (PStr "") ->
  (forall w : World E,
      read_file E file w = (Raise (ValueError "No file path provided"), w)) /\
  (forall (model : string) (text api_key : option string) (w : World E),
      AiReader_new E file model text api_key w =
        if contains "claude" model then
          (c <- Anthropic E (opt_str_or api_key (ANTHROPIC_API_KEY E)) ;;
           ret {| file := file; model := model; text := text; client := Some c;
                  api_key := opt_str_or api_key (ANTHROPIC_API_KEY E) |}) w
        else (Raise (NotImplementedError ("Model " ++ model ++ " not supported")), w)).
Proof.
  intros [-> | ->]; (split; [reflexivity|]); intros model text api_key w;
    unfold AiReader_new, attrs_post_init; cbn;
    destruct (contains "claude" model); reflexivity.
Qed.

(** On a [str] path ending in [.pdf] that [pypdf] can read, [read_file]
    returns the extracted text of the pages, joined in page order; exactly
    when that text is empty it returns instead the text [pytesseract]
    recognises in the page images of [pdf2image], joined in page order. *)
Theorem read_file_pdf (s : string) (w w1 w2 : World E)
    (pages : list (PdfPage E)) (texts : list string) :
  endswith s ".pdf" = true ->
  PdfReader_pages E (PStr s) (logger_info E "Reading pdf file..." w) = (Ok pages, w1) ->
  map_m (extract_text E) pages w1 = (Ok texts, w2) ->
  Forall2 (fun page t => exists wa wb, extract_text E page wa = (Ok t, wb)) pages texts /\
  (join "" texts <> "" ->
   read_file E (Some (PStr s)) w = (Ok (join "" texts), w2)) /\
  (join "" texts = "" ->
   forall (images : list (Image E)) (ocr : list string) (w3 w4 : World E),
     convert_from_path E (PStr s)
       (logger_info E "No text found in pdf, attempting to extract from images..." w2)
       = (Ok images, w3) ->
     map_m (image_to_string E) images w3 = (Ok ocr, w4) ->
     Forall2 (fun image t => exists wa wb, image_to_string E image wa = (Ok t, wb))
             images ocr /\
     read_file E (Some (PStr s)) w = (Ok (join "" ocr), w4)).
Proof.
  intros Hpdf Hp Hm.
  pose proof (read_file_pdf_str E s w w1 w2 pages texts Hpdf Hp Hm) as Hread.
  split; [exact (map_m_ok _ _ _ _ _ Hm)|]. split.
  - intros Hne. rewrite Hread. destruct (join "" texts); [congruence | reflexivity].
  - intros Hempty images ocr w3 w4 Hc Ho.
    split; [exact (map_m_ok _ _ _ _ _ Ho)|].
    rewrite Hread, Hempty. cbn [str_truthy].
    exact (text_from_images_join E _ _ _ _ _ _ Hc Ho).
Qed.

(** C6 (as amended). Construction first reads the file when a file is
    given and no text is.  Once that step is over without an error (no
    read was due, or [read_file] returned), a model name that does not
    contain [claude] raises [NotImplementedError("Model ... not
    supported")] before any client is built, and a model name that
    contains [claude] passes the check: the client is built with the API
    key and the reader is returned. *)
Theorem AiReader_model_check (file : option PathLike) (model : string)
    (text api_key text1 : option string) (w w1 : World E) :
  (file_truthy file && negb (opt_str_truthy text) = false /\ text1 = text /\ w1 = w) \/
  (file_truthy file && negb (opt_str_truthy text) = true /\
   exists t, read_file E file w = (Ok t, w1) /\ text1 = Some t) ->
  AiReader_new E file model text api_key w =
    if contains "claude" model then
      (c <- Anthropic E (opt_str_or api_key (ANTHROPIC_API_KEY E)) ;;
       ret {| file := file; model := model; text := text1; client := Some c;
              api_key := opt_str_or api_key (ANTHROPIC_API_KEY E) |}) w1
    else (Raise (NotImplementedError ("Model " ++ model ++ " not supported")), w1).
Proof.
  intros [(Hno & -> & ->) | (Hyes & t & Hread & ->)];
    unfold AiReader_new, attrs_post_init; cbn [Speedread.file Speedread.text].
  - rewrite Hno. unfold bind at 1. unfold ret at 1. cbn.
    destruct (contains "claude" model); reflexivity.
  - rewrite Hyes. unfold bind at 1. unfold bind at 1. rewrite Hread.
    unfold ret at 1. cbn.
    destruct (contains "claude" model); reflexivity.
Qed.

(** On a [str] path [stem.ext] whose extension [ext] is neither [pdf]
    nor [txt], [read_file] raises [NotImplementedError("File type ext not
    supported")], and it reads nothing: no library is called and the world
    is as before. *)
Theorem read_file_unsupported_extension (stem ext : string) (w : World E) :
  has_char "." ext = false -> ext <> "pdf" -> ext <> "txt" ->
  read_file E (Some (PStr (stem ++ "." ++ ext))) w =
    (Raise (NotImplementedError ("File type " ++ ext ++ " not supported")), w).
Proof.
  intros Hext Hpdf Htxt. exact (read_file_unsupported_str E stem ext w Hext Hpdf Htxt).
Qed.

End SpeedreadClaims.

(* ================================================================== *)
(** * speedread: runs on the recorded environment *)

Section SpeedreadRuns.
Import Py Eff Speedread.

(** A missing path: [read_file] raises [ValueError]; the constructor
    does not read and returns a reader with the text it was given. *)
Lemma missing_path_read_file_and_AiReader_witness :
  (@None PathLike = None \/ @None PathLike = Some (PStr "")) /\
  read_file Demo.speedread_env None [] = (Raise (ValueError "No file path provided"), []) /\
  AiReader_new Demo.speedread_env None "claude-3-haiku" (Some "given text") None []
  = (Ok (Build_AiReader Demo.speedread_env None "claude-3-haiku" (Some "given text")
           (Some (Some "sk-config")) (Some "sk-config")),
     [Demo.EvAnthropic (Some "sk-config")]).
Proof.
  split; [now left|].
  destruct (missing_path_read_file_and_AiReader Demo.speedread_env None
              (or_introl eq_refl)) as [Hread Hnew].
  split; [apply Hread | rewrite Hnew; reflexivity].
Defined.

(** [AiReader()] with neither file nor text: the constructor returns a
    reader whose text is [None]; no [ValueError] is raised. *)
Lemma AiReader_missing_path_constructs :
  AiReader_new Demo.speedread_env None (default_model) None None []
  = (Ok (Build_AiReader Demo.speedread_env None "claude-3-opus-20240229" None
           (Some (Some "sk-config")) (Some "sk-config")),
     [Demo.EvAnthropic (Some "sk-config")]).
Proof. reflexivity. Qed.

(** [paper.pdf] has embedded text; [scan.pdf] has none and goes through
    OCR. *)
Lemma read_file_pdf_witness :
  endswith "paper.pdf" ".pdf" = true /\
  endswith "scan.pdf" ".pdf" = true /\
  read_file Demo.speedread_env (Some (PStr "paper.pdf")) []
  = (Ok "Hello, world",
     [Demo.EvLog "Reading pdf file..."; Demo.EvPdfReader "paper.pdf";
      Demo.EvExtractText "Hello, "; Demo.EvExtractText "world"]) /\
  read_file Demo.speedread_env (Some (PStr "scan.pdf")) []
  = (Ok "page one page two",
     [Demo.EvLog "Reading pdf file..."; Demo.EvPdfReader "scan.pdf";
      Demo.EvExtractText ""; Demo.EvExtractText "";
      Demo.EvLog "No text found in pdf, attempting to extract from images...";
      Demo.EvConvertFromPath "scan.pdf";
      Demo.EvImageToString "page one "; Demo.EvImageToString "page two"]).
Proof.
  split; [reflexivity|]. split; [reflexivity|]. split.
  - destruct (read_file_pdf Demo.speedread_env "paper.pdf" [] _ _
                ["Hello, "; "world"] ["Hello, "; "world"]
                eq_refl eq_refl eq_refl) as (_ & Htext & _).
    apply Htext. discriminate.
  - destruct (read_file_pdf Demo.speedread_env "scan.pdf" [] _ _
                [""; ""] [""; ""] eq_refl eq_refl eq_refl) as (_ & _ & Hocr).
    destruct (Hocr eq_refl ["page one "; "page two"] ["page one "; "page two"]
                _ _ eq_refl eq_refl) as [_ Hread].
    exact Hread.
Defined.

(** The model check with no read due, and after a read that returned. *)
Lemma AiReader_model_check_witness :
  AiReader_new Demo.speedread_env None "gpt-4" (Some "given text") None []
  = (Raise (NotImplementedError "Model gpt-4 not supported"), []) /\
  read_file Demo.speedread_env (Some (PStr "notes.txt")) []
  = (Ok "some notes", [Demo.EvLog "Reading txt file..."; Demo.EvOpenRead "notes.txt"]) /\
  AiReader_new Demo.speedread_env (Some (PStr "notes.txt")) "claude-3-opus-20240229"
    None (Some "sk-mine") []
  = (Ok (Build_AiReader Demo.speedread_env (Some (PStr "notes.txt"))
           "claude-3-opus-20240229" (Some "some notes") (Some (Some "sk-mine"))
           (Some "sk-mine")),
     [Demo.EvLog "Reading txt file..."; Demo.EvOpenRead "notes.txt";
      Demo.EvAnthropic (Some "sk-mine")]).
Proof.
  split; [|split; [reflexivity|]].
  - rewrite (AiReader_model_check Demo.speedread_env None "gpt-4"
               (Some "given text") None (Some "given text") [] []
               (or_introl (conj eq_refl (conj eq_refl eq_refl)))).
    reflexivity.
  - rewrite (AiReader_model_check Demo.speedread_env (Some (PStr "notes.txt"))
               "claude-3-opus-20240229" None (Some "sk-mine") (Some "some notes") []
               [Demo.EvLog "Reading txt file..."; Demo.EvOpenRead "notes.txt"]
               (or_intror (conj eq_refl
                  (ex_intro _ "some notes" (conj eq_refl eq_refl))))).
    reflexivity.
Defined.

(** The file is read before the model is checked: with a file that cannot
    be opened the constructor raises the error of [open], whatever the
    model; with a file of unsupported type a [claude] model is not
    accepted either. *)
Lemma AiReader_model_check_after_read :
  AiReader_new Demo.speedread_env (Some (PStr "missing.txt")) "gpt-4" None None []
  = (Raise (LibraryError "FileNotFoundError"),
     [Demo.EvLog "Reading txt file..."; Demo.EvOpenRead "missing.txt"]) /\
  AiReader_new Demo.speedread_env (Some (PStr "notes.docx")) "claude-3-opus-20240229"
    None None []
  = (Raise (NotImplementedError "File type docx not supported"), []).
Proof. split; reflexivity. Qed.

(** [notes.docx] *)
Lemma read_file_unsupported_extension_witness :
  has_char "." "docx" = false /\ "docx" <> "pdf" /\ "docx" <> "txt" /\
  read_file Demo.speedread_env (Some (PStr "notes.docx")) []
  = (Raise (NotImplementedError "File type docx not supported"), []).
Proof.
  split; [reflexivity|]. split; [discriminate|]. split; [discriminate|].
  apply (read_file_unsupported_extension Demo.speedread_env "notes" "docx" []);
    [reflexivity | discriminate | discriminate].
Defined.

End SpeedreadRuns.

(* ================================================================== *)
(** * vancouver_heritage: scanning the tables *)

Section HeritageFacts.
Import Py Eff Heritage Spec.
Variable E : Heritage.Env.

(** The index [find_index] returns is that of an element which satisfies
    the test. *)
Lemma find_index_Some {A : Type} (p : A -> bool) (xs : list A) :
  forall i, find_index p xs = Some i ->
            exists x, nth_error xs i = Some x /\ p x = true.
Proof.
  induction xs as [|x xs IH]; intros i H; simpl in H; [discriminate|].
  destruct (p x) eqn:Hp.
  - injection H as <-. now exists x.
  - destruct (find_index p xs) as [j|]; [|discriminate].
    injection H as <-. exact (IH j eq_refl).
Qed.

(** [find_index] finds an index as soon as some element satisfies the
    test. *)
Lemma find_index_exists {A : Type} (p : A -> bool) (xs : list A) :
  (exists x, In x xs /\ p x = true) -> exists i, find_index p xs = Some i.
Proof.
  induction xs as [|x xs IH]; intros [y [Hin Hy]]; [destruct Hin|].
  simpl. destruct (p x) eqn:Hp; [now exists 0|].
  destruct Hin as [->|Hin]; [congruence|].
  destruct (IH (ex_intro _ y (conj Hin Hy))) as [i ->]. now exists (S i).
Qed.

Lemma hd_error_filter {A : Type} (p : A -> bool) (xs : list A) :
  hd_error (filter p xs) = None <-> existsb p xs = false.
Proof.
  induction xs as [|x xs IH]; simpl; [tauto|].
  destruct (p x); simpl; [split; discriminate | exact IH].
Qed.

(** [cell.find("img")] is [None] exactly when no [img] lies below the
    cell. *)
Lemma find_img_none (cell : node) :
  find "img" cell = None <-> existsb (is_tag "img") (descendants cell) = false.
Proof. apply hd_error_filter. Qed.

(** Construction of a [Location] always returns: the arguments are kept
    and [geopy_location] is whatever [_geolocate] produced. *)
Lemma Location_new_ok (a c : string) (n : option string) (w : World E) :
  exists g w', Location_new E a c n w = (Ok (Build_Location E a c g n), w').
Proof.
  unfold Location_new, _geolocate, bind, try_except, ret.
  destruct (Nominatim_geocode E (a ++ ", " ++ c) w) as [[g|e] w1]; eauto.
Qed.

(** One row appends the locations of the cells it contributes. *)
Lemma scan_row_cells (pi li : nat) (town : string) (acc : list (Location E))
    (row : node) (w : World E) :
  exists new w',
    scan_row E pi li town acc row w = (Ok (acc ++ new)%list, w') /\
    Forall2 (built_from E town) (row_cells pi li row) new.
Proof.
  unfold scan_row, row_cells.
  destruct (Nat.max pi li <? length (findAll "td" row))%nat eqn:Hlen.
  - apply Nat.ltb_lt in Hlen.
    destruct (nth_error (findAll "td" row) pi) as [pc|] eqn:Hpc;
      [|apply nth_error_None in Hpc; lia].
    destruct (nth_error (findAll "td" row) li) as [lc|] eqn:Hlc;
      [|apply nth_error_None in Hlc; lia].
    destruct (find "img" pc) as [i|] eqn:Himg.
    + destruct (existsb (is_tag "img") (descendants pc)) eqn:Hex.
      * exists [], w. rewrite app_nil_r. split; [reflexivity | constructor].
      * apply find_img_none in Hex. congruence.
    + apply find_img_none in Himg. rewrite Himg.
      destruct (Location_new_ok (get_text_strip lc) town None w) as (g & w' & Hnew).
      exists [Build_Location E (get_text_strip lc) town g None], w'.
      rewrite (bind_ok _ _ _ _ _ Hnew). split; [reflexivity|].
      constructor; [now repeat split | constructor].
  - apply Nat.ltb_ge in Hlen. exists [], w. rewrite app_nil_r.
    split; [reflexivity|].
    destruct (nth_error (findAll "td" row) pi) as [pc|] eqn:Hpc; [|constructor].
    destruct (nth_error (findAll "td" row) li) as [lc|] eqn:Hlc; [|constructor].
    assert (pi < length (findAll "td" row)) by (apply nth_error_Some; congruence).
    assert (li < length (findAll "td" row)) by (apply nth_error_Some; congruence).
    lia.
Qed.

(** A loop whose every step appends the locations of some cells appends,
    in all, the locations of all those cells in order. *)
Lemma fold_m_cells {A : Type} (town : string) (cells : A -> list node)
    (body : list (Location E) -> A -> M (World E) (list (Location E))) :
  (forall acc x w, exists new w',
       body acc x w = (Ok (acc ++ new)%list, w') /\
       Forall2 (built_from E town) (cells x) new) ->
  forall xs acc w, exists new w',
      fold_m body acc xs w = (Ok (acc ++ new)%list, w') /\
      Forall2 (built_from E town) (flat_map cells xs) new.
Proof.
  intros Hbody. induction xs as [|x xs IH]; intros acc w.
  - exists [], w. rewrite app_nil_r. split; [reflexivity | constructor].
  - destruct (Hbody acc x w) as (new1 & w1 & Hx & Hcells1).
    destruct (IH (acc ++ new1)%list w1) as (new2 & w2 & Hxs & Hcells2).
    exists (new1 ++ new2)%list, w2. split.
    + cbn [fold_m]. rewrite (bind_ok _ _ _ _ _ Hx), Hxs. now rewrite app_assoc.
    + cbn [flat_map]. now apply Forall2_app.
Qed.

(** One table appends the locations of the cells it contributes. *)
Lemma scan_table_cells (location_col photo_col town : string)
    (acc : list (Location E)) (table : node) (w : World E) :
  exists new w',
    scan_table E location_col photo_col town acc table w = (Ok (acc ++ new)%list, w') /\
    Forall2 (built_from E town) (table_cells location_col photo_col table) new.
Proof.
  unfold scan_table, table_cells.
  destruct (find_index (contains photo_col) _) as [pi|];
    [|exists [], w; rewrite app_nil_r; split; [reflexivity | constructor]].
  destruct (find_index (contains location_col) _) as [li|];
    [|exists [], w; rewrite app_nil_r; split; [reflexivity | constructor]].
  apply fold_m_cells. intros acc' row w'. apply scan_row_cells.
Qed.

(** What a row contributes, by its photo cell. *)
Lemma row_cells_by_photo (pi li : nat) (row photo_cell location_cell : node) :
  nth_error (findAll "td" row) pi = Some photo_cell ->
  nth_error (findAll "td" row) li = Some location_cell ->
  (contains_img photo_cell -> row_cells pi li row = []) /\
  (children photo_cell = [] -> row_cells pi li row = [location_cell]).
Proof.
  intros Hp Hl. unfold row_cells. rewrite Hp, Hl. split.
  - intros (d & Hin & Hd).
    replace (existsb (is_tag "img") (descendants photo_cell)) with true; [reflexivity|].
    symmetry. apply existsb_exists. now exists d.
  - intros Hch. destruct photo_cell; simpl in Hch |- *; try reflexivity.
    now rewrite Hch.
Qed.

End HeritageFacts.

(* ================================================================== *)
(** * vancouver_heritage: the claims *)

Section HeritageClaims.
Import Py Eff Heritage Spec.
Variable E : Heritage.Env.

(** With no start location and a first location [l], the URL is the
    prefix, the [repr] of [l], and the coordinate pairs of all locations
    joined with [+to:] in list order. *)
Lemma generate_google_maps_url_shape (l : Location E) (ls : list (Location E)) :
  generate_google_maps_url_for_ios E (l :: ls) None =
    Ok ("comgooglemaps://?saddr=" ++ Location_repr E l ++ "&daddr="
        ++ join "+to:" (map (coord_str E) (l :: ls))).
Proof. reflexivity. Qed.

(** What the scan returns, by position.  When the page is fetched, the
    function returns, in document order, one [Location] (in the given
    city, without a name) for every cell of [table_cells].  In a table
    with a header containing the photo word and one containing the
    location word, [pi] and [li] are the positions of the first such
    headers among the [th] of the table, and a row with a [pi]-th and a
    [li]-th [td] contributes nothing when an [img] lies below its
    [pi]-th [td], and its [li]-th [td] when its [pi]-th [td] is empty.
    These are the cells under the two headers only in a table whose rows
    consist of [td] cells alone. *)
Theorem get_locations_without_photos_rows
    (url location_col photo_col town content : string) (w w1 : World E) :
  requests_get E url w = (Ok content, w1) ->
  exists locs w',
    get_locations_without_photos E url location_col photo_col town w = (Ok locs, w') /\
    Forall2 (built_from E town)
      (flat_map (table_cells location_col photo_col)
         (findAll_class "table" "wikitable" (html_parser E content)))
      locs /\
    forall table,
      In table (findAll_class "table" "wikitable" (html_parser E content)) ->
      has_header photo_col table -> has_header location_col table ->
      exists pi li photo_header location_header,
        nth_error (map get_text_strip (findAll "th" table)) pi = Some photo_header /\
        contains photo_col photo_header = true /\
        nth_error (map get_text_strip (findAll "th" table)) li = Some location_header /\
        contains location_col location_header = true /\
        table_cells location_col photo_col table
        = flat_map (row_cells pi li) (findAll "tr" table) /\
        forall row photo_cell location_cell,
          In row (findAll "tr" table) ->
          nth_error (findAll "td" row) pi = Some photo_cell ->
          nth_error (findAll "td" row) li = Some location_cell ->
          (contains_img photo_cell -> row_cells pi li row = []) /\
          (children photo_cell = [] -> row_cells pi li row = [location_cell]).
Proof.
  intros Hget.
  destruct (fold_m_cells E town (table_cells location_col photo_col)
              (scan_table E location_col photo_col town)
              (fun acc t w0 => scan_table_cells E location_col photo_col town acc t w0)
              (findAll_class "table" "wikitable" (html_parser E content)) [] w1)
    as (locs & w' & Hfold & Hcells).
  exists locs, w'. split; [|split].
  - unfold get_locations_without_photos. now rewrite (bind_ok _ _ _ _ _ Hget).
  - exact Hcells.
  - intros table _ Hphoto Hloc.
    destruct (find_index_exists _ _ Hphoto) as [pi Hpi].
    destruct (find_index_exists _ _ Hloc) as [li Hli].
    destruct (find_index_Some _ _ _ Hpi) as (ph & Hph & Hphc).
    destruct (find_index_Some _ _ _ Hli) as (lh & Hlh & Hlhc).
    exists pi, li, ph, lh. repeat (split; [assumption|]). split.
    + unfold table_cells. now rewrite Hpi, Hli.
    + intros row pc lc _ Hp Hl. exact (row_cells_by_photo pi li row pc lc Hp Hl).
Qed.

(** The rows [writerows] writes are the [csv_row]s of the locations. *)
Lemma writerows_csv_rows (fout : File E) (locations : list (Location E)) (w : World E) :
  writerows E fout ["address"; "city"; "name"] (map (unstructure E) locations) w
  = for_m (csv_writerow E fout) (map (csv_row E) locations) w.
Proof.
  revert w. unfold writerows.
  induction locations as [|l ls IH]; intros w; [reflexivity|].
  cbn [map for_m]. apply bind_ext; [reflexivity | intros _ w'; apply IH].
Qed.

(** C5 (as amended). For every non-empty list of locations, [to_csv]
    writes to the output file the header row [address, city, name] and
    then exactly one row per location, in order, holding that location's
    address, city and name; [geopy_location] has no column. *)
Theorem to_csv_rows (locations : list (Location E)) (output_path : string)
    (w : World E) :
  locations <> [] ->
  to_csv E locations output_path w
  = write_csv E output_path (csv_header :: map (csv_row E) locations) w /\
  length (map (csv_row E) locations) = length locations /\
  Forall (fun row => length row = length csv_header) (map (csv_row E) locations).
Proof.
  intros Hne. split; [|split].
  - destruct locations as [|l ls]; [congruence|].
    unfold to_csv, write_csv. apply bind_ext; [reflexivity|].
    intros fout w1. apply finally_ext.
    change (for_m (csv_writerow E fout) (csv_header :: map (csv_row E) (l :: ls)))
      with (csv_writerow E fout csv_header ;;;
            for_m (csv_writerow E fout) (map (csv_row E) (l :: ls))).
    change (map (unstructure E) (l :: ls))
      with (unstructure E l :: map (unstructure E) ls).
    rewrite (bind_ok _ _ w1 w1 (unstructure E l)) by reflexivity.
    apply bind_ext; [reflexivity|].
    intros _ w2. exact (writerows_csv_rows fout (l :: ls) w2).
  - apply length_map.
  - apply Forall_forall. intros row Hin. apply in_map_iff in Hin.
    destruct Hin as (l & <- & _). reflexivity.
Qed.

(** C7. Construction of a [Location] always returns a location with the
    given address, city and name.  When the geocoder finds the address,
    [geopy_location] is its result; when it finds nothing or raises,
    [geopy_location] is [None] and so are [latitude] and [longitude]. *)
Theorem Location_new_geocoding (a c : string) (n : option string) (w : World E) :
  exists l w',
    Location_new E a c n w = (Ok l, w') /\
    address E l = a /\ city E l = c /\ name E l = n /\
    match fst (Nominatim_geocode E (a ++ ", " ++ c) w) with
    | Ok (Some g) => geopy_location E l = Some g
    | Ok None | Raise _ =>
        geopy_location E l = None /\ latitude E l = None /\ longitude E l = None
    end.
Proof.
  unfold Location_new, _geolocate, bind, try_except, ret.
  destruct (Nominatim_geocode E (a ++ ", " ++ c) w) as [[[g|]|e] w1]; cbn [fst].
  - exists (Build_Location E a c (Some g) n), w1. now repeat split.
  - exists (Build_Location E a c None n), w1. now repeat split.
  - exists (Build_Location E a c None n), w1. now repeat split.
Qed.

(** C9. With the empty list and no start or centre location,
    [generate_google_maps_url_for_ios] and [plot_locations_on_map] raise
    [IndexError] at [locations[0]], before any library call.  [to_csv]
    never returns on the empty list: once the output file is open it
    raises [IndexError] at [csv_data[0]], and the file is closed with
    nothing written. *)
Theorem exporters_reject_empty_list (output_path : string) (w : World E) :
  generate_google_maps_url_for_ios E [] None
  = Raise (IndexError "list index out of range") /\
  plot_locations_on_map E [] None output_path w
  = (Raise (IndexError "list index out of range"), w) /\
  to_csv E [] output_path w
  = match open_write E output_path w with
    | (Ok fout, w1) =>
        (Raise (IndexError "list index out of range"), file_close E fout w1)
    | (Raise e, w1) => (Raise e, w1)
    end /\
  is_ok (fst (to_csv E [] output_path w)) = false.
Proof.
  split; [reflexivity|]. split; [reflexivity|].
  assert (Hcsv : to_csv E [] output_path w
                 = match open_write E output_path w with
                   | (Ok fout, w1) =>
                       (Raise (IndexError "list index out of range"),
                        file_close E fout w1)
                   | (Raise e, w1) => (Raise e, w1)
                   end).
  { unfold to_csv, bind at 1.
    destruct (open_write E output_path w) as [[fout|e] w1]; reflexivity. }
  split; [exact Hcsv|]. rewrite Hcsv.
  destruct (open_write E output_path w) as [[fout|e] w1]; reflexivity.
Qed.

(** C10. [latitude] and [longitude] are both [None] when
    [geopy_location] is absent and both the resolved coordinates when it
    is present; neither is [None] without the other. *)
Theorem latitude_longitude_together (l : Location E) :
  match geopy_location E l with
  | None => latitude E l = None /\ longitude E l = None
  | Some g =>
      latitude E l = Some (geo_latitude E g) /\
      longitude E l = Some (geo_longitude E g)
  end /\
  (latitude E l = None <-> geopy_location E l = None) /\
  (longitude E l = None <-> geopy_location E l = None) /\
  (latitude E l = None <-> longitude E l = None).
Proof.
  unfold latitude, longitude.
  destruct (geopy_location E l) as [g|]; repeat split; congruence.
Qed.

End HeritageClaims.

(* ================================================================== *)
(** * vancouver_heritage: runs on the recorded environment *)

Section HeritageRuns.
Import Py Eff Heritage Spec.

(** C1. The code at a list of two locations, the first of which the
    geocoder did not find: the origin of the URL is the [repr] of the
    first [Location], not its coordinate pair [None,None]; the
    destination part is the coordinate pairs joined with [+to:]. *)
Theorem generate_google_maps_url_saddr_is_repr :
  generate_google_maps_url_for_ios Demo.heritage_env [Demo.loc_elm; Demo.loc_main] None
  = Ok ("comgooglemaps://?saddr="
        ++ "Location(address='3 Elm St', city='Vancouver', geopy_location=None, name=None)"
        ++ "&daddr=None,None+to:49.28,-123.1") /\
  coord_str Demo.heritage_env Demo.loc_elm = "None,None".
Proof. split; reflexivity. Qed.

(** The page of the recorded environment: the row with a photo is left
    out, the two rows with an empty photo cell are returned. *)
Lemma get_locations_without_photos_rows_witness :
  requests_get Demo.heritage_env "https://example.org/heritage" []
  = (Ok "<html>", [Demo.EvGet "https://example.org/heritage"]) /\
  exists locs w',
    get_locations_without_photos Demo.heritage_env "https://example.org/heritage"
      "Location" "Photo" "Vancouver" [] = (Ok locs, w') /\
    map (address Demo.heritage_env) locs = ["2 Oak St"; "3 Elm St"].
Proof.
  split; [reflexivity|].
  destruct (get_locations_without_photos_rows Demo.heritage_env
              "https://example.org/heritage" "Location" "Photo" "Vancouver" "<html>"
              [] [Demo.EvGet "https://example.org/heritage"] eq_refl)
    as (locs & w' & Hrun & _).
  exists locs, w'. split; [exact Hrun|].
  vm_compute in Hrun. injection Hrun as <- _. reflexivity.
Defined.

(** Two locations: a header row and two data rows. *)
Lemma to_csv_rows_witness :
  [Demo.loc_main; Demo.loc_elm] <> [] /\
  to_csv Demo.heritage_env [Demo.loc_main; Demo.loc_elm] "out.csv" []
  = (Ok tt,
     [Demo.EvOpenWrite "out.csv";
      Demo.EvWriteRow "out.csv" [CStr "address"; CStr "city"; CStr "name"];
      Demo.EvWriteRow "out.csv" [CStr "1 Main St"; CStr "Vancouver"; CNone];
      Demo.EvWriteRow "out.csv" [CStr "3 Elm St"; CStr "Vancouver"; CNone];
      Demo.EvClose "out.csv"]).
Proof.
  assert (Hne : [Demo.loc_main; Demo.loc_elm] <> []) by discriminate.
  split; [exact Hne|].
  destruct (to_csv_rows Demo.heritage_env [Demo.loc_main; Demo.loc_elm] "out.csv" [] Hne)
    as [Hrows _].
  rewrite Hrows. reflexivity.
Defined.

(** The empty list: the file is opened and closed, no row is written,
    not even the header, and [IndexError] is raised. *)
Lemma to_csv_empty_list_raises :
  to_csv Demo.heritage_env [] "out.csv" []
  = (Raise (IndexError "list index out of range"),
     [Demo.EvOpenWrite "out.csv"; Demo.EvClose "out.csv"]).
Proof. reflexivity. Qed.

(** The three outcomes of geocoding: found, not found, unreachable. *)
Example Location_new_found :
  Location_new Demo.heritage_env "1 Main St" "Vancouver" None []
  = (Ok Demo.loc_main, [Demo.EvGeocode "1 Main St, Vancouver"]).
Proof. reflexivity. Qed.

Example Location_new_not_found :
  Location_new Demo.heritage_env "3 Elm St" "Vancouver" None []
  = (Ok Demo.loc_elm, [Demo.EvGeocode "3 Elm St, Vancouver"]).
Proof. reflexivity. Qed.

Example Location_new_unreachable :
  Location_new Demo.heritage_env "Offline" "Vancouver" None []
  = (Ok (Build_Location Demo.heritage_env "Offline" "Vancouver" None None),
     [Demo.EvGeocode "Offline, Vancouver"]).
Proof. reflexivity. Qed.

End HeritageRuns.

(* ================================================================== *)
(** * speedread: further properties *)

Section SpeedreadMore.
Import Py Eff Speedread Summarize.
Variable E : Speedread.Env.
Variable A : Summarize.Api E.

(** A string with the separator splits at its last occurrence. *)
Lemma last_sep (sep : ascii) (s : string) :
  has_char sep s = true ->
  exists stem ext, s = stem ++ String sep ext /\ has_char sep ext = false.
Proof.
  induction s as [|c s IH]; [discriminate|].
  rewrite has_char_cons. intros H.
  destruct (has_char sep s) eqn:Hs.
  - destruct (IH eq_refl) as (stem & ext & -> & Hext).
    now exists (String c stem), ext.
  - rewrite orb_false_r in H. apply Ascii.eqb_eq in H. subst c.
    now exists "", s.
Qed.

(** [s.split(sep)[-1]] never fails: it is the whole string when the
    separator is absent and the text after its last occurrence
    otherwise. *)
Lemma split_last_total (sep : ascii) (s : string) :
  exists ext,
    index_last (split sep s) = Ok ext /\ has_char sep ext = false /\
    (s = ext \/ exists stem, s = stem ++ String sep ext).
Proof.
  destruct (has_char sep s) eqn:Hs.
  - destruct (last_sep sep s Hs) as (stem & ext & -> & Hext).
    exists ext. split; [now apply split_last|]. split; [exact Hext|].
    right. now exists stem.
  - exists s. rewrite (split_no_sep _ _ Hs). auto.
Qed.

(** On a [str] path that ends in [.txt], [read_file] is the logging
    followed by the reading of the file. *)
Lemma read_file_txt_eq (stem : string) (w : World E) :
  read_file E (Some (PStr (stem ++ ".txt"))) w
  = open_read E (PStr (stem ++ ".txt")) (logger_info E "Reading txt file..." w).
Proof.
  unfold read_file. cbn [file_truthy].
  replace (str_truthy (stem ++ ".txt")) with true by now destruct stem.
  cbn [negb].
  rewrite (endswith_ext stem "txt" "pdf" eq_refl eq_refl) by discriminate.
  replace (endswith (stem ++ ".txt") ".txt") with true
    by (symmetry; apply endswith_iff; now exists stem).
  reflexivity.
Qed.

(** X2. Every non-empty [str] path that ends neither in [.pdf] nor in
    [.txt] is rejected with [NotImplementedError], never with an
    [IndexError] of the [split], and nothing is called.  The type named
    in the message is the text after the last dot, and the whole path
    when it has no dot. *)
Theorem read_file_unsupported_any (s : string) (w : World E) :
  s <> "" -> endswith s ".pdf" = false -> endswith s ".txt" = false ->
  exists ext,
    read_file E (Some (PStr s)) w
    = (Raise (NotImplementedError ("File type " ++ ext ++ " not supported")), w) /\
    has_char "." ext = false /\
    (s = ext \/ exists stem, s = stem ++ "." ++ ext).
Proof.
  intros Hne Hpdf Htxt.
  destruct (split_last_total "." s) as (ext & Hlast & Hdot & Hshape).
  exists ext. split; [|split; assumption].
  unfold read_file. cbn [file_truthy].
  replace (str_truthy s) with true by (destruct s; [congruence | reflexivity]).
  cbn [negb]. rewrite Hpdf, Htxt. unfold bind, lift. now rewrite Hlast.
Qed.

(** X3. An [AiReader] given its file as a [pathlib.Path] and no text
    cannot be constructed: whatever the model, construction raises
    [AttributeError] at [file.endswith] before any library is called. *)
Theorem AiReader_Path_raises (p model : string) (text api_key : option string)
    (w : World E) :
  opt_str_truthy text = false ->
  AiReader_new E (Some (PPath p)) model text api_key w
  = (Raise (AttributeError "endswith"), w).
Proof.
  intros Htext. unfold AiReader_new, attrs_post_init.
  cbn [Speedread.file Speedread.text file_truthy]. rewrite Htext. reflexivity.
Qed.

(** What construction leaves in a reader it returns. *)
Lemma AiReader_new_returns (file : option PathLike) (model : string)
    (text api_key : option string) (w w' : World E) (r : AiReader E) :
  AiReader_new E file model text api_key w = (Ok r, w') ->
  Speedread.file E r = file /\ Speedread.model E r = model /\
  contains "claude" model = true /\
  (exists c, client E r = Some c) /\
  Speedread.api_key E r = opt_str_or api_key (ANTHROPIC_API_KEY E) /\
  (Speedread.text E r = text \/
   (file_truthy file = true /\ opt_str_truthy text = false /\
    exists t w0, read_file E file w = (Ok t, w0) /\ Speedread.text E r = Some t)).
Proof.
  unfold AiReader_new, attrs_post_init. cbn [Speedread.file Speedread.text].
  destruct (file_truthy file) eqn:Hfile; cbn [andb];
    [destruct (opt_str_truthy text) eqn:Htext; cbn [negb]|].
  2: { unfold bind at 1. unfold bind at 1.
       destruct (read_file E file w) as [[t|e] w0] eqn:Hread; [|discriminate].
       unfold ret at 1. cbn.
       destruct (contains "claude" model); [|discriminate].
       unfold bind. destruct (Anthropic E _ w0) as [[c|e] w1]; [|discriminate].
       unfold ret. intros H. injection H as <- _. cbn.
       repeat split; eauto. right. repeat split. now exists t, w0. }
  all: unfold bind at 1; unfold ret at 1; cbn;
    (destruct (contains "claude" model); [|discriminate]);
    unfold bind; (destruct (Anthropic E _ w) as [[c|e] w1]; [|discriminate]);
    unfold ret; intros H; injection H as <- _; cbn; repeat split; eauto.
Qed.

(** X4. Every reader that construction returns has a model name that
    contains [claude], a client, the file and model it was given, and as
    API key the given key, or the configured one when none or an empty
    one was given.  Its text is the given text, or what [read_file]
    returned when a file was given and no text was. *)
Theorem AiReader_new_invariant (file : option PathLike) (model : string)
    (text api_key : option string) (w w' : World E) (r : AiReader E) :
  AiReader_new E file model text api_key w = (Ok r, w') ->
  Speedread.file E r = file /\ Speedread.model E r = model /\
  contains "claude" model = true /\
  (exists c, client E r = Some c) /\
  Speedread.api_key E r = opt_str_or api_key (ANTHROPIC_API_KEY E) /\
  (Speedread.text E r = text \/
   (file_truthy file = true /\ opt_str_truthy text = false /\
    exists t w0, read_file E file w = (Ok t, w0) /\ Speedread.text E r = Some t)).
Proof.
  unfold AiReader_new, attrs_post_init. cbn [Speedread.file Speedread.text].
  destruct (file_truthy file) eqn:Hfile; cbn [andb];
    [destruct (opt_str_truthy text) eqn:Htext; cbn [negb]|].
  2: { unfold bind at 1. unfold bind at 1.
       destruct (read_file E file w) as [[t|e] w0] eqn:Hread; [|discriminate].
       unfold ret at 1. cbn.
       destruct (contains "claude" model); [|discriminate].
       unfold bind. destruct (Anthropic E _ w0) as [[c|e] w1]; [|discriminate].
       unfold ret. intros H. injection H as <- _. cbn.
       repeat split; eauto. right. repeat split. now exists t, w0. }
  all: unfold bind at 1; unfold ret at 1; cbn;
    (destruct (contains "claude" model); [|discriminate]);
    unfold bind; (destruct (Anthropic E _ w) as [[c|e] w1]; [|discriminate]);
    unfold ret; intros H; injection H as <- _; cbn; repeat split; eauto.
Qed.

(** X5. [summarize] sends one user message, the text between
    [<content>] tags followed by the characters [/n] and the prompt, to
    the reader's model with the given token budget, and returns the text
    of the first block of the response; later blocks are ignored.  An
    empty response is an [IndexError], and an error of the API is passed
    on. *)
Theorem summarize_first_block (r : AiReader E) (c : Client E) (prompt : string)
    (max_tokens : Z) (w : World E) :
  client E r = Some c ->
  summarize E A r prompt max_tokens w
  = match messages_create A c (Speedread.model E r) max_tokens
            [("user", "Here is the contents of a pdf <content>"
                      ++ fmt_opt_str (Speedread.text E r) ++ "</content>/n" ++ prompt)] w
    with
    | (Ok (TextBlock t :: _), w') => (Ok t, w')
    | (Ok (OtherBlock :: _), w') => (Raise (AttributeError "text"), w')
    | (Ok [], w') => (Raise (IndexError "list index out of range"), w')
    | (Raise e, w') => (Raise e, w')
    end.
Proof.
  intros Hc. unfold summarize, summarize_text, get_response. rewrite Hc.
  rewrite !string_app_assoc. cbn [String.append].
  unfold bind at 1.
  destruct (messages_create A c _ _ _ w) as [[[|[t|] rest]|e] w']; reflexivity.
Qed.

(** X6. A reader constructed with neither a file nor a text has no text
    to summarise, and [summarize] does not notice: the message it sends
    carries the word [None] between the [<content>] tags. *)
Theorem summarize_without_text (file : option PathLike) (model : string)
    (api_key : option string) (prompt : string) (max_tokens : Z)
    (w w' : World E) (r : AiReader E) :
  file = None \/ file = Some (PStr "") ->
  AiReader_new E file model None api_key w = (Ok r, w') ->
  exists c,
    client E r = Some c /\
    summarize E A r prompt max_tokens w'
    = get_response E A
        ("Here is the contents of a pdf <content>None</content>/n" ++ prompt)
        c model max_tokens w'.
Proof.
  intros Hfile Hnew.
  destruct (AiReader_new_returns _ _ _ _ _ _ _ Hnew)
    as (_ & Hmodel & _ & (c & Hc) & _ & Htext).
  exists c. split; [exact Hc|].
  assert (Hnone : Speedread.text E r = None).
  { destruct Htext as [H | (Ht & _)]; [exact H|].
    destruct Hfile as [-> | ->]; discriminate. }
  unfold summarize, summarize_text. rewrite Hc, Hnone, Hmodel.
  cbn [fmt_opt_str]. now rewrite !string_app_assoc.
Qed.

(** X7. On a [.pdf] path the OCR fallback is taken for an empty text
    only, never for an error: when [PdfReader] or the extraction of a
    page raises, [read_file] raises that error and [pdf2image] is not
    called. *)
Theorem read_file_pdf_errors (s : string) (w w1 : World E) (e : Exn) :
  endswith s ".pdf" = true ->
  PdfReader_pages E (PStr s) (logger_info E "Reading pdf file..." w) = (Raise e, w1) \/
  (exists pages w0,
      PdfReader_pages E (PStr s) (logger_info E "Reading pdf file..." w) = (Ok pages, w0) /\
      map_m (extract_text E) pages w0 = (Raise e, w1)) ->
  read_file E (Some (PStr s)) w = (Raise e, w1).
Proof.
  intros Hpdf H. unfold read_file. cbn [file_truthy].
  rewrite (endswith_nonempty _ _ Hpdf eq_refl). cbn [negb]. rewrite Hpdf.
  unfold bind at 1. unfold act at 1.
  destruct H as [Hp | (pages & w0 & Hp & Hm)].
  - now rewrite (bind_raise _ _ _ _ _ Hp).
  - rewrite (bind_ok _ _ _ _ _ Hp). now rewrite (bind_raise _ _ _ _ _ Hm).
Qed.

End SpeedreadMore.

(* ================================================================== *)
(** * vancouver_heritage: further properties *)

Section HeritageMore.
Import Py Eff Heritage Spec.
Variable E : Heritage.Env.

(** [find_index] finds nothing when no element satisfies the test. *)
Lemma find_index_None {A : Type} (p : A -> bool) (xs : list A) :
  ~ (exists x, In x xs /\ p x = true) -> find_index p xs = None.
Proof.
  intros Hno. destruct (find_index p xs) as [i|] eqn:Hi; [|reflexivity].
  destruct (find_index_Some _ _ _ Hi) as (x & Hx & Hp).
  exfalso. apply Hno. exists x. split; [exact (nth_error_In _ _ Hx) | exact Hp].
Qed.

(** A loop over several lists in a row is the loops in a row. *)
Lemma for_m_app {W A : Type} (body : A -> M W unit) (xs ys : list A) (w : W) :
  for_m body (xs ++ ys)%list w = (for_m body xs ;;; for_m body ys) w.
Proof.
  revert w. induction xs as [|x xs IH]; intros w; [reflexivity|].
  cbn [app for_m]. unfold bind.
  destruct (body x w) as [[u|e] w1]; [|reflexivity].
  rewrite IH. reflexivity.
Qed.

(** A loop stops at the first step that raises. *)
Lemma for_m_stops {W A : Type} (body : A -> M W unit) (pre post : list A) (x : A)
    (w w1 w2 : W) (e : Exn) :
  for_m body pre w = (Ok tt, w1) -> body x w1 = (Raise e, w2) ->
  for_m body (pre ++ x :: post)%list w = (Raise e, w2).
Proof.
  intros Hpre Hx. rewrite for_m_app, (bind_ok _ _ _ _ _ Hpre).
  cbn [for_m]. now rewrite (bind_raise _ _ _ _ _ Hx).
Qed.

(** For a non-empty list [to_csv] opens the file, writes the header and
    the rows of the locations, and closes the file. *)
Lemma to_csv_writes (l : Location E) (ls : list (Location E)) (output_path : string)
    (w : World E) :
  to_csv E (l :: ls) output_path w
  = write_csv E output_path (csv_header :: map (csv_row E) (l :: ls)) w.
Proof.
  unfold to_csv, write_csv. apply bind_ext; [reflexivity|].
  intros fout w1. apply finally_ext.
  change (for_m (csv_writerow E fout) (csv_header :: map (csv_row E) (l :: ls)))
    with (csv_writerow E fout csv_header ;;;
          for_m (csv_writerow E fout) (map (csv_row E) (l :: ls))).
  change (map (unstructure E) (l :: ls))
    with (unstructure E l :: map (unstructure E) ls).
  rewrite (bind_ok _ _ w1 w1 (unstructure E l)) by reflexivity.
  apply bind_ext; [reflexivity|].
  intros _ w2. exact (writerows_csv_rows E fout (l :: ls) w2).
Qed.

(** The rows of locations that a scan built: the city is that of the
    scan and there is no name. *)
Lemma csv_rows_of_scan (town : string) (cells : list node) (locs : list (Location E)) :
  Forall2 (built_from E town) cells locs ->
  map (csv_row E) locs = map (fun l => [CStr (address E l); CStr town; CNone]) locs.
Proof.
  induction 1 as [|cell loc cells locs (Ha & Hc & Hn) _ IH]; [reflexivity|].
  cbn [map]. rewrite IH. unfold csv_row. now rewrite Hc, Hn.
Qed.

(** X8. [generate_google_maps_url_for_ios] raises on exactly one input,
    the empty list without a start location.  With a start location it
    returns for every list, the empty one included: the origin part is
    printed from the start location alone, and the destination part is
    the coordinate pairs of the list joined with [+to:], whether or not
    the start is among them. *)
Theorem generate_google_maps_url_total (locations : list (Location E))
    (start_location : option (Location E)) :
  (generate_google_maps_url_for_ios E locations start_location
   = Raise (IndexError "list index out of range")
   <-> locations = [] /\ start_location = None) /\
  (is_ok (generate_google_maps_url_for_ios E locations start_location) = false
   <-> locations = [] /\ start_location = None) /\
  (forall s, exists origin, forall locs,
     generate_google_maps_url_for_ios E locs (Some s)
     = Ok ("comgooglemaps://?saddr=" ++ origin ++ "&daddr="
           ++ join "+to:" (map (coord_str E) locs))).
Proof.
  split; [|split].
  - unfold generate_google_maps_url_for_ios.
    destruct start_location as [s|]; [|destruct locations as [|l ls]]; cbn;
      (split; [discriminate || auto | intros [? ?]; discriminate || reflexivity]).
  - unfold generate_google_maps_url_for_ios.
    destruct start_location as [s|]; [|destruct locations as [|l ls]]; cbn;
      (split; [discriminate || auto | intros [? ?]; discriminate || reflexivity]).
  - intros s. exists (Location_repr E s). intros locs. reflexivity.
Qed.

(** One table without both columns leaves the list and the world as
    they are. *)
Lemma scan_table_skips (location_col photo_col town : string)
    (acc : list (Location E)) (table : node) (w : World E) :
  ~ has_header photo_col table \/ ~ has_header location_col table ->
  scan_table E location_col photo_col town acc table w = (Ok acc, w).
Proof.
  intros H. unfold scan_table.
  destruct H as [H | H]; apply find_index_None in H; rewrite H;
    [reflexivity | now destruct (find_index (contains photo_col) _)].
Qed.

(** X9. When no table of the page has both a header with the photo
    word and a header with the location word, the result is the empty
    list, not an error, and the geocoder is never called: the world is
    as the fetch left it. *)
Theorem get_locations_without_photos_no_columns
    (url location_col photo_col town content : string) (w w1 : World E) :
  requests_get E url w = (Ok content, w1) ->
  (forall table,
      In table (findAll_class "table" "wikitable" (html_parser E content)) ->
      ~ has_header photo_col table \/ ~ has_header location_col table) ->
  get_locations_without_photos E url location_col photo_col town w = (Ok [], w1).
Proof.
  intros Hget Hno. unfold get_locations_without_photos.
  rewrite (bind_ok _ _ _ _ _ Hget).
  induction (findAll_class "table" "wikitable" (html_parser E content)) as [|t ts IH];
    [reflexivity|].
  cbn [fold_m]. rewrite (bind_ok _ _ w1 w1 []).
  - apply IH. intros table Hin. apply Hno. now right.
  - apply scan_table_skips. apply Hno. now left.
Qed.

(** X10. Exporting what the scan returned: [to_csv] writes the header
    and then one row per returned location, in order, holding the
    address of that location, the city given to the scan, and an empty
    name, since the scan never sets a name. *)
Theorem scan_then_to_csv (url location_col photo_col town content output_path : string)
    (w w1 w2 : World E) (locs : list (Location E)) :
  requests_get E url w = (Ok content, w1) ->
  get_locations_without_photos E url location_col photo_col town w = (Ok locs, w2) ->
  locs <> [] ->
  forall w3 : World E,
    to_csv E locs output_path w3
    = write_csv E output_path
        (csv_header :: map (fun l => [CStr (address E l); CStr town; CNone]) locs)
        w3.
Proof.
  intros Hget Hrun Hne w3.
  destruct (fold_m_cells E town (table_cells location_col photo_col)
              (scan_table E location_col photo_col town)
              (fun acc t w0 => scan_table_cells E location_col photo_col town acc t w0)
              (findAll_class "table" "wikitable" (html_parser E content)) [] w1)
    as (locs' & w' & Hfold & Hcells).
  unfold get_locations_without_photos in Hrun.
  rewrite (bind_ok _ _ _ _ _ Hget), Hfold in Hrun. injection Hrun as <- _.
  cbn [app] in Hne |- *.
  rewrite <- (csv_rows_of_scan town _ _ Hcells).
  destruct locs' as [|l ls]; [congruence|]. apply to_csv_writes.
Qed.

(** X11. When the writing of a row fails, [to_csv] does not return: it
    raises, the rows after the failed one are never written, and the
    closing of the file on leaving the [with] block is the last thing
    done, with the header and the rows before the failed one written. *)
Theorem to_csv_stops_at_failed_row (pre post : list (Location E)) (l : Location E)
    (output_path : string) (fout : File E) (w w1 w2 w3 : World E) (e : Exn) :
  open_write E output_path w = (Ok fout, w1) ->
  for_m (csv_writerow E fout) (csv_header :: map (csv_row E) pre) w1 = (Ok tt, w2) ->
  csv_writerow E fout (csv_row E l) w2 = (Raise e, w3) ->
  is_ok (fst (to_csv E (pre ++ l :: post)%list output_path w)) = false /\
  snd (to_csv E (pre ++ l :: post)%list output_path w) = file_close E fout w3.
Proof.
  intros Hopen Hpre Hrow.
  assert (Hall : for_m (csv_writerow E fout)
                   (csv_header :: map (csv_row E) (pre ++ l :: post)%list) w1
                 = (Raise e, w3)).
  { rewrite map_app. cbn [map].
    exact (for_m_stops _ (csv_header :: map (csv_row E) pre) _ _ _ _ _ _ Hpre Hrow). }
  destruct (pre ++ l :: post)%list as [|x xs] eqn:Hlist;
    [now destruct pre|].
  rewrite to_csv_writes. unfold write_csv.
  rewrite (bind_ok _ _ _ _ _ Hopen). unfold finally. rewrite Hall. now split.
Qed.

(** X12. [plot_locations_on_map] hands the coordinates of every
    location to [gmplot] as they are, [None] included.  When a marker
    is refused, the error is raised at once: the later markers are not
    placed and the map file is not drawn. *)
Theorem plot_stops_at_failed_marker (pre post : list (Location E)) (l c : Location E)
    (centre_location : option (Location E)) (output_path : string)
    (gmap : Gmap E) (w w1 w2 w3 : World E) (e : Exn) :
  or_first E centre_location (pre ++ l :: post)%list = Ok c ->
  GoogleMapPlotter E (latitude E c) (longitude E c) 13 w = (Ok gmap, w1) ->
  for_m (fun location =>
           gmap_marker E gmap (latitude E location) (longitude E location)
             (address E location)) pre w1 = (Ok tt, w2) ->
  gmap_marker E gmap (latitude E l) (longitude E l) (address E l) w2 = (Raise e, w3) ->
  plot_locations_on_map E (pre ++ l :: post)%list centre_location output_path w
  = (Raise e, w3).
Proof.
  intros Hc Hplot Hpre Hmark. unfold plot_locations_on_map.
  rewrite (bind_ok _ _ w w c) by (unfold lift; now rewrite Hc).
  rewrite (bind_ok _ _ _ _ _ Hplot).
  apply bind_raise.
  exact (for_m_stops _ pre post l _ _ _ _ Hpre Hmark).
Qed.

End HeritageMore.

(* ================================================================== *)
(** * Further properties: runs on the recorded environments *)

Section MoreRuns.
Import Py Eff Speedread Summarize Heritage Spec.

(** [README] has no dot: the whole path is named as the type. *)
Lemma read_file_unsupported_any_witness :
  "README" <> "" /\ endswith "README" ".pdf" = false /\ endswith "README" ".txt" = false /\
  exists ext,
    read_file Demo.speedread_env (Some (PStr "README")) []
    = (Raise (NotImplementedError ("File type " ++ ext ++ " not supported")), []) /\
    has_char "." ext = false /\
    ("README" = ext \/ exists stem, "README" = stem ++ "." ++ ext).
Proof.
  assert (Hne : "README" <> "") by discriminate.
  split; [exact Hne|]. split; [reflexivity|]. split; [reflexivity|].
  exact (read_file_unsupported_any Demo.speedread_env "README" [] Hne eq_refl eq_refl).
Defined.

(** [AiReader(file=Path("paper.pdf"))] *)
Lemma AiReader_Path_raises_witness :
  opt_str_truthy None = false /\
  AiReader_new Demo.speedread_env (Some (PPath "paper.pdf")) "claude-3-opus-20240229"
    None None []
  = (Raise (AttributeError "endswith"), []).
Proof.
  split; [reflexivity|].
  exact (AiReader_Path_raises Demo.speedread_env "paper.pdf" "claude-3-opus-20240229"
           None None [] eq_refl).
Defined.

(** The reader of [notes.txt]. *)
Lemma AiReader_new_invariant_witness :
  AiReader_new Demo.speedread_env (Some (PStr "notes.txt")) "claude-3-opus-20240229"
    None (Some "") []
  = (Ok (Build_AiReader Demo.speedread_env (Some (PStr "notes.txt"))
           "claude-3-opus-20240229" (Some "some notes") (Some (Some "sk-config"))
           (Some "sk-config")),
     [Demo.EvLog "Reading txt file..."; Demo.EvOpenRead "notes.txt";
      Demo.EvAnthropic (Some "sk-config")]) /\
  contains "claude" "claude-3-opus-20240229" = true /\
  opt_str_or (Some "") (ANTHROPIC_API_KEY Demo.speedread_env) = Some "sk-config".
Proof.
  assert (Hnew : AiReader_new Demo.speedread_env (Some (PStr "notes.txt"))
                   "claude-3-opus-20240229" None (Some "") []
                 = (Ok (Build_AiReader Demo.speedread_env (Some (PStr "notes.txt"))
                          "claude-3-opus-20240229" (Some "some notes")
                          (Some (Some "sk-config")) (Some "sk-config")),
                    [Demo.EvLog "Reading txt file..."; Demo.EvOpenRead "notes.txt";
                     Demo.EvAnthropic (Some "sk-config")])) by reflexivity.
  split; [exact Hnew|].
  destruct (AiReader_new_invariant Demo.speedread_env _ _ _ _ _ _ _ Hnew)
    as (_ & _ & Hclaude & _ & Hkey & _).
  split; [exact Hclaude | now rewrite <- Hkey].
Defined.

(** A reader with a text, against the API that echoes the prompt. *)
Lemma summarize_first_block_witness :
  client Demo.speedread_env DemoMore.reader_with_text = Some (Some "sk-config") /\
  summarize Demo.speedread_env DemoMore.echo_api DemoMore.reader_with_text
    default_prompt default_max_tokens []
  = (Ok "Here is the contents of a pdf <content>given text</content>/nPlease summarize the text.",
     []).
Proof.
  split; [reflexivity|].
  rewrite (summarize_first_block Demo.speedread_env DemoMore.echo_api
             DemoMore.reader_with_text (Some "sk-config") default_prompt
             default_max_tokens [] eq_refl).
  reflexivity.
Defined.

(** [AiReader().summarize()] against the echoing API. *)
Lemma summarize_without_text_witness :
  (@None PathLike = None \/ @None PathLike = Some (PStr "")) /\
  AiReader_new Demo.speedread_env None "claude-3-opus-20240229" None None []
  = (Ok DemoMore.reader_without_text, [Demo.EvAnthropic (Some "sk-config")]) /\
  exists c,
    client Demo.speedread_env DemoMore.reader_without_text = Some c /\
    summarize Demo.speedread_env DemoMore.echo_api DemoMore.reader_without_text
      default_prompt default_max_tokens [Demo.EvAnthropic (Some "sk-config")]
    = get_response Demo.speedread_env DemoMore.echo_api
        ("Here is the contents of a pdf <content>None</content>/n" ++ default_prompt)
        c "claude-3-opus-20240229" default_max_tokens
        [Demo.EvAnthropic (Some "sk-config")].
Proof.
  split; [now left|]. split; [reflexivity|].
  exact (summarize_without_text Demo.speedread_env DemoMore.echo_api None
           "claude-3-opus-20240229" None default_prompt default_max_tokens
           [] [Demo.EvAnthropic (Some "sk-config")] DemoMore.reader_without_text
           (or_introl eq_refl) eq_refl).
Defined.

(** [missing.pdf] cannot be opened: no OCR is attempted. *)
Lemma read_file_pdf_errors_witness :
  endswith "missing.pdf" ".pdf" = true /\
  read_file Demo.speedread_env (Some (PStr "missing.pdf")) []
  = (Raise (LibraryError "FileNotFoundError"),
     [Demo.EvLog "Reading pdf file..."; Demo.EvPdfReader "missing.pdf"]).
Proof.
  split; [reflexivity|].
  exact (read_file_pdf_errors Demo.speedread_env "missing.pdf" [] _ _ eq_refl
           (or_introl eq_refl)).
Defined.

(** The page has no header with [Image]: nothing is returned and the
    geocoder is not asked. *)
Lemma get_locations_without_photos_no_columns_witness :
  get_locations_without_photos Demo.heritage_env "https://example.org/heritage"
    "Location" "Image" "Vancouver" []
  = (Ok [], [Demo.EvGet "https://example.org/heritage"]).
Proof.
  apply (get_locations_without_photos_no_columns Demo.heritage_env
           "https://example.org/heritage" "Location" "Image" "Vancouver" "<html>"
           [] [Demo.EvGet "https://example.org/heritage"] eq_refl).
  intros table Hin. left. intros (h & Hh & Hc).
  destruct Hin as [<- | []].
  destruct Hh as [<- | [<- | [<- | []]]]; discriminate Hc.
Defined.

(** The scan of the page, exported. *)
Lemma scan_then_to_csv_witness :
  get_locations_without_photos Demo.heritage_env "https://example.org/heritage"
    "Location" "Photo" "Vancouver" []
  = (Ok [Build_Location Demo.heritage_env "2 Oak St" "Vancouver" (Some Demo.oak_st) None;
         Demo.loc_elm],
     [Demo.EvGet "https://example.org/heritage"; Demo.EvGeocode "2 Oak St, Vancouver";
      Demo.EvGeocode "3 Elm St, Vancouver"]) /\
  to_csv Demo.heritage_env
    [Build_Location Demo.heritage_env "2 Oak St" "Vancouver" (Some Demo.oak_st) None;
     Demo.loc_elm] "out.csv" []
  = (Ok tt,
     [Demo.EvOpenWrite "out.csv";
      Demo.EvWriteRow "out.csv" [CStr "address"; CStr "city"; CStr "name"];
      Demo.EvWriteRow "out.csv" [CStr "2 Oak St"; CStr "Vancouver"; CNone];
      Demo.EvWriteRow "out.csv" [CStr "3 Elm St"; CStr "Vancouver"; CNone];
      Demo.EvClose "out.csv"]).
Proof.
  split; [reflexivity|].
  rewrite (scan_then_to_csv Demo.heritage_env "https://example.org/heritage"
             "Location" "Photo" "Vancouver" "<html>" "out.csv"
             [] [Demo.EvGet "https://example.org/heritage"]
             [Demo.EvGet "https://example.org/heritage";
              Demo.EvGeocode "2 Oak St, Vancouver"; Demo.EvGeocode "3 Elm St, Vancouver"]
             [Build_Location Demo.heritage_env "2 Oak St" "Vancouver"
                (Some Demo.oak_st) None; Demo.loc_elm]
             eq_refl eq_refl ltac:(discriminate) []).
  reflexivity.
Defined.

(** The disk fills up at the second row: the third is not written and
    the file is closed. *)
Lemma to_csv_stops_at_failed_row_witness :
  is_ok (fst (to_csv DemoMore.faulty_env
                [DemoMore.f_main; DemoMore.f_elm; DemoMore.f_oak] "out.csv" [])) = false /\
  snd (to_csv DemoMore.faulty_env
         [DemoMore.f_main; DemoMore.f_elm; DemoMore.f_oak] "out.csv" [])
  = [Demo.EvOpenWrite "out.csv";
     Demo.EvWriteRow "out.csv" [CStr "address"; CStr "city"; CStr "name"];
     Demo.EvWriteRow "out.csv" [CStr "1 Main St"; CStr "Vancouver"; CNone];
     Demo.EvWriteRow "out.csv" [CStr "3 Elm St"; CStr "Vancouver"; CNone];
     Demo.EvClose "out.csv"].
Proof.
  exact (to_csv_stops_at_failed_row DemoMore.faulty_env [DemoMore.f_main] [DemoMore.f_oak]
           DemoMore.f_elm "out.csv" "out.csv" [] _ _ _
           (LibraryError "OSError") eq_refl eq_refl eq_refl).
Defined.

(** The second location has no coordinates: its marker is refused, the
    third is not placed and nothing is drawn. *)
Lemma plot_stops_at_failed_marker_witness :
  plot_locations_on_map DemoMore.faulty_env
    [DemoMore.f_main; DemoMore.f_elm; DemoMore.f_oak] None "map.html" []
  = (Raise (LibraryError "TypeError"),
     [Demo.EvPlotter (Some "49.28") (Some "-123.1") 13;
      Demo.EvMarker (Some "49.28") (Some "-123.1") "1 Main St";
      Demo.EvMarker None None "3 Elm St"]).
Proof.
  exact (plot_stops_at_failed_marker DemoMore.faulty_env [DemoMore.f_main]
           [DemoMore.f_oak] DemoMore.f_elm DemoMore.f_main None "map.html" tt
           [] _ _ _ _ eq_refl eq_refl eq_refl eq_refl).
Defined.

End MoreRuns.

(* ================================================================== *)
(** * speedread: from the file to the request *)

Section Pipeline.
Import Py Eff Speedread Summarize.
Variable E : Speedread.Env.
Variable A : Summarize.Api E.

(** X13. The whole pipeline on a text file: a reader constructed from a
    [.txt] path holds the contents of the file as its text, and
    [summarize] sends exactly those contents between the [<content>]
    tags, with the prompt after them, to the client built at
    construction. *)
Theorem txt_file_to_request (stem model contents prompt : string)
    (api_key : option string) (max_tokens : Z) (c : Client E) (w w1 w2 : World E) :
  open_read E (PStr (stem ++ ".txt")) (logger_info E "Reading txt file..." w)
  = (Ok contents, w1) ->
  contains "claude" model = true ->
  Anthropic E (opt_str_or api_key (ANTHROPIC_API_KEY E)) w1 = (Ok c, w2) ->
  exists r,
    AiReader_new E (Some (PStr (stem ++ ".txt"))) model None api_key w = (Ok r, w2) /\
    Speedread.text E r = Some contents /\
    summarize E A r prompt max_tokens w2
    = get_response E A
        ("Here is the contents of a pdf <content>" ++ contents ++ "</content>/n" ++ prompt)
        c model max_tokens w2.
Proof.
  intros Hread Hclaude Hclient.
  exists (Build_AiReader E (Some (PStr (stem ++ ".txt"))) model (Some contents) (Some c)
            (opt_str_or api_key (ANTHROPIC_API_KEY E))).
  split; [|split; [reflexivity|]].
  - unfold AiReader_new, attrs_post_init. cbn [Speedread.file Speedread.text].
    replace (file_truthy (Some (PStr (stem ++ ".txt")))) with true
      by (now destruct stem).
    cbn [opt_str_truthy negb andb].
    unfold bind at 1. unfold bind at 1. rewrite read_file_txt_eq, Hread.
    unfold ret at 1. cbn. rewrite Hclaude.
    now rewrite (bind_ok _ _ _ _ _ Hclient).
  - unfold summarize, summarize_text. cbn. now rewrite !string_app_assoc.
Qed.

End Pipeline.

Section PipelineRun.
Import Py Eff Speedread Summarize.

(** [AiReader(file="notes.txt").summarize()] against the echoing API. *)
Lemma txt_file_to_request_witness :
  exists r,
    AiReader_new Demo.speedread_env (Some (PStr "notes.txt")) "claude-3-opus-20240229"
      None None []
    = (Ok r, [Demo.EvLog "Reading txt file..."; Demo.EvOpenRead "notes.txt";
              Demo.EvAnthropic (Some "sk-config")]) /\
    summarize Demo.speedread_env DemoMore.echo_api r default_prompt default_max_tokens
      [Demo.EvLog "Reading txt file..."; Demo.EvOpenRead "notes.txt";
       Demo.EvAnthropic (Some "sk-config")]
    = (Ok "Here is the contents of a pdf <content>some notes</content>/nPlease summarize the text.",
       [Demo.EvLog "Reading txt file..."; Demo.EvOpenRead "notes.txt";
        Demo.EvAnthropic (Some "sk-config")]).
Proof.
  destruct (txt_file_to_request Demo.speedread_env DemoMore.echo_api "notes"
              "claude-3-opus-20240229" "some notes" default_prompt None
              default_max_tokens (Some "sk-config") []
              [Demo.EvLog "Reading txt file..."; Demo.EvOpenRead "notes.txt"]
              [Demo.EvLog "Reading txt file..."; Demo.EvOpenRead "notes.txt";
               Demo.EvAnthropic (Some "sk-config")]
              eq_refl eq_refl eq_refl) as (r & Hnew & _ & Hsum).
  exists r. split; [exact Hnew|]. rewrite Hsum. reflexivity.
Defined.

End PipelineRun.

(* ================================================================== *)
(** * The defects, run *)

Section Defects.
Import Py Eff Speedread Heritage.

(** C2. The code at a table whose rows begin with a row header.  The
    positions of the Photo and Location headers among the [th] cells, 1
    and 2, are used as positions among the [td] cells of a row, which are
    one column further right.  So the row with an image in its photo
    cell is returned, with the empty text of its Notes cell as address,
    and the row with the empty photo cell is returned with the text of
    its Notes cell, not of its location cell [2 Oak St]. *)
Theorem get_locations_without_photos_row_headers :
  get_locations_without_photos DemoMore.rowheader_env "https://example.org/heritage"
    "Location" "Photo" "Vancouver" []
  = (Ok [Build_Location DemoMore.rowheader_env "" "Vancouver" None None;
         Build_Location DemoMore.rowheader_env "built 1910" "Vancouver" None None],
     [Demo.EvGet "https://example.org/heritage"; Demo.EvGeocode ", Vancouver";
      Demo.EvGeocode "built 1910, Vancouver"]).
Proof. reflexivity. Qed.

(** C4. The code at [Path("paper.pdf")]: [read_file] raises
    [AttributeError] at [file.endswith] and [pypdf] is never called,
    while the same path as a [str] is read. *)
Theorem read_file_pdf_Path_raises :
  read_file Demo.speedread_env (Some (PPath "paper.pdf")) []
  = (Raise (AttributeError "endswith"), []) /\
  read_file Demo.speedread_env (Some (PStr "paper.pdf")) []
  = (Ok "Hello, world",
     [Demo.EvLog "Reading pdf file..."; Demo.EvPdfReader "paper.pdf";
      Demo.EvExtractText "Hello, "; Demo.EvExtractText "world"]).
Proof. split; reflexivity. Qed.

(** C8. The code at [Path("notes.docx")]: [read_file] raises
    [AttributeError] at [file.endswith], not the unsupported-format
    error it raises for the same path as a [str]. *)
Theorem read_file_unsupported_Path_raises :
  read_file Demo.speedread_env (Some (PPath "notes.docx")) []
  = (Raise (AttributeError "endswith"), []) /\
  read_file Demo.speedread_env (Some (PStr "notes.docx")) []
  = (Raise (NotImplementedError "File type docx not supported"), []).
Proof. split; reflexivity. Qed.

End Defects.

(* ================================================================== *)
(** * [str.strip]: the fuel is enough *)

Section StripFacts.
Import Py.

Lemma drop_prefix_length (p s r : string) :
  drop_prefix p s = Some r -> String.length s = String.length p + String.length r.
Proof.
  revert s; induction p as [|a p IH]; intros s H; simpl in H.
  - now injection H as <-.
  - destruct s as [|b s]; [discriminate|].
    destruct (Ascii.eqb a b); [|discriminate].
    simpl. now rewrite (IH _ H).
Qed.

Lemma drop_first_shorter (ps : list string) (s r : string) :
  Forall (fun p => p <> "") ps ->
  drop_first ps s = Some r -> String.length r < String.length s.
Proof.
  induction 1 as [|p ps Hp _ IH]; simpl; [discriminate|].
  destruct (drop_prefix p s) as [r'|] eqn:Hd; [|exact IH].
  intros H. injection H as <-. apply drop_prefix_length in Hd.
  destruct p; [congruence | simpl in Hd; lia].
Qed.

(** With the length of the string as fuel, stripping runs to its end:
    what is left starts with none of the characters. *)
Lemma lstrip_chars_done (ps : list string) (fuel : nat) (s : string) :
  Forall (fun p => p <> "") ps -> String.length s <= fuel ->
  drop_first ps (lstrip_chars ps fuel s) = None.
Proof.
  intros Hps. revert s. induction fuel as [|n IH]; intros s Hlen; simpl.
  - destruct (drop_first ps s) as [r|] eqn:Hd; [|reflexivity].
    apply (drop_first_shorter _ _ _ Hps) in Hd. lia.
  - destruct (drop_first ps s) as [r|] eqn:Hd; [|exact Hd].
    apply IH. apply (drop_first_shorter _ _ _ Hps) in Hd. lia.
Qed.

(** [s.lstrip()] starts with no white space. *)
Lemma lstrip_done (s : string) : drop_first whitespace (lstrip s) = None.
Proof.
  apply lstrip_chars_done; [|apply Nat.le_refl].
  unfold whitespace. repeat (constructor; [discriminate|]). constructor.
Qed.

End StripFacts.
